(** * StockMentions: mention store, ranked aggregation and ticker extraction

    A shallow embedding of the parts of the repository that carry decision
    logic:

    - the Postgres schema ([mentions], the [mentions_hourly] materialized
      view and its indexes) and the refresh script;
    - the [GET /api/subreddits] route handler with its ranking query;
    - the mention extractor and the [record] / [count_since] operations of
      the mention store, whose implementation (the Python worker) is not
      part of the sources at hand and is modelled from the specification.

    Timestamps are integers: microseconds since the epoch on the database
    side (the resolution of [TIMESTAMPTZ]), milliseconds on the JavaScript
    side ([Date.getTime]).  A string is the sequence of its UTF-8 bytes,
    the encoding of the database; lengths in SQL count characters.

    Where SQL leaves a choice to the engine, the choice is a parameter:
    the arrangement of rows with equal sort keys under [ORDER BY], and the
    time zone of the session in which [DATE_TRUNC] works. *)

From Stdlib Require Import List String Ascii Bool Arith ZArith QArith Lia.
From Stdlib Require Import Permutation Sorted DecimalString.
Import ListNotations.

Local Close Scope Q_scope.
Local Open Scope nat_scope.
Local Open Scope string_scope.
Local Open Scope list_scope.

(* ================================================================== *)
(** * Small SQL toolkit *)
(* ================================================================== *)

Module Sql.

Section Membership.
Context {K : Type} (eqb : K -> K -> bool).

Definition mem (k : K) (l : list K) : bool := existsb (eqb k) l.

(** Keys of a [GROUP BY], in order of first appearance in the scan. *)
Fixpoint distinct_from (seen : list K) (l : list K) : list K :=
  match l with
  | [] => []
  | k :: rest =>
      if mem k seen then distinct_from seen rest
      else k :: distinct_from (k :: seen) rest
  end.

Definition distinct (l : list K) : list K := distinct_from [] l.
End Membership.

Section Grouping.
Context {Row K : Type} (eqb : K -> K -> bool) (key : Row -> K).

(** [GROUP BY key]: one group per distinct key, holding every row of the
    input with that key.  SQL leaves the order of the groups open; the
    model lists them in order of first appearance. *)
Definition group_by (rows : list Row) : list (K * list Row) :=
  map (fun k => (k, filter (fun r => eqb (key r) k) rows))
      (distinct eqb (map key rows)).
End Grouping.

Section Aggregates.
Context {Row : Type}.

(** [COUNT( * )] *)
Definition count_star (rows : list Row) : nat := List.length rows.

(** [COUNT(CASE WHEN p THEN 1 END)]: the [CASE] is [NULL] when [p] fails
    and [COUNT] skips [NULL]s. *)
Definition count_case (p : Row -> bool) (rows : list Row) : nat :=
  List.length (filter p rows).

(** [SUM(CASE WHEN p THEN 1 ELSE 0 END)] *)
Definition sum_case (p : Row -> bool) (rows : list Row) : nat :=
  fold_right (fun r acc => (if p r then 1 else 0) + acc) 0 rows.

(** [AVG(col)] over a nullable integer-scaled column: [NULL]s are skipped,
    and the result is [NULL] when nothing is left.  The value is kept as
    the exact quotient. *)
Definition avg (col : Row -> option Z) (rows : list Row) : option Q :=
  let vals := flat_map (fun r => match col r with
                                 | Some v => [v]
                                 | None => []
                                 end) rows in
  match vals with
  | [] => None
  | _ :: _ =>
      Some (Qred (Qmake (fold_right Z.add 0%Z vals)
                        (Pos.of_nat (List.length vals))))
  end.
End Aggregates.

Section Ordering.
Context {Row : Type} (before : Row -> Row -> bool).

(** Insertion of [x] in front of the first row it may precede. *)
Fixpoint insert_sorted (x : Row) (l : list Row) : list Row :=
  match l with
  | [] => [x]
  | y :: rest =>
      if before x y then x :: y :: rest else y :: insert_sorted x rest
  end.

(** A stable sort: rows with equal sort keys stay in the order they came
    in.  It is [ORDER BY] wherever the sort key is unique (as [rank] is);
    where keys can be equal SQL promises nothing about such rows, and a
    stable sort is one of the arrangements an engine may give. *)
Definition order_by (l : list Row) : list Row :=
  fold_right insert_sorted [] l.

(** [a] may stand in front of [b]. *)
Definition in_order (a b : Row) : Prop := before a b = true.
End Ordering.

(** A byte of the form 10xxxxxx continues a character begun before it. *)
Definition is_continuation (c : ascii) : bool :=
  (128 <=? nat_of_ascii c)%nat && (nat_of_ascii c <? 192)%nat.

(** [LENGTH(s)], and the measure of [VARCHAR(n)]: the number of characters
    of a UTF-8 string. *)
Definition char_length (s : string) : nat :=
  List.length (filter (fun c => negb (is_continuation c))
                      (list_ascii_of_string s)).

(** [ROW_NUMBER()] over an already ordered list: 1, 2, 3, ... *)
Definition row_numbers {Row : Type} (l : list Row) : list (Row * nat) :=
  combine l (seq 1 (List.length l)).

(** [LIMIT n] *)
Definition limit {Row : Type} (n : nat) (l : list Row) : list Row :=
  firstn n l.

End Sql.

(* ================================================================== *)
(** * The schema *)
(* ================================================================== *)

Module Schema.

(** A row of [mentions]. [NOT NULL] columns hold a value, nullable columns
    an [option]. [sentiment_score] is [DECIMAL(3,2)], kept in hundredths. *)
Record Mention : Type := mkMention {
  id : Z;
  ticker : string;
  subreddit : string;
  post_id : string;
  comment_id : option string;  (* NULL for posts, populated for comments *)
  source : string;
  created_at : Z;
  author : option string;
  context : option string;
  sentiment_score : option Z;
  reddit_created_utc : option Z;
  post_title : option string
}.

Definition set_id (n : Z) (m : Mention) : Mention :=
  mkMention n (ticker m) (subreddit m) (post_id m) (comment_id m) (source m)
            (created_at m) (author m) (context m) (sentiment_score m)
            (reddit_created_utc m) (post_title m).

(** A row of the materialized view [mentions_hourly]. *)
Record HourlyRow : Type := mkHourlyRow {
  h_ticker : string;
  h_subreddit : string;
  bucket_hour : Z;
  hits : nat;
  h_posts : nat;
  h_comments : nat;
  avg_sentiment : option Q
}.

(** An index as declared by [CREATE [UNIQUE] INDEX]. *)
Record IndexDef : Type := mkIndex {
  index_name : string;
  index_relation : string;
  index_columns : list string;
  index_unique : bool
}.

(** The indexes the schema script creates on the materialized view
    (both plain [CREATE INDEX]). *)
Definition mentions_hourly_indexes : list IndexDef :=
  [ mkIndex "idx_mentions_hourly_ticker" "mentions_hourly" ["ticker"] false;
    mkIndex "idx_mentions_hourly_bucket" "mentions_hourly" ["bucket_hour"]
            false ].

Record Database : Type := mkDatabase {
  mentions : list Mention;          (* in scan order: oldest insert first *)
  mentions_id_seq : Z;              (* last value handed out for [id] *)
  mentions_hourly : list HourlyRow  (* the stored snapshot of the view *)
}.

(** The state the schema script leaves on a fresh database: no mention,
    and the view populated from none. *)
Definition empty_db : Database := mkDatabase [] 0 [].

(** ** Column constraints of [mentions] *)

Definition fits (n : nat) (s : string) : bool :=
  Nat.leb (Sql.char_length s) n.

Definition fits_opt (n : nat) (s : option string) : bool :=
  match s with
  | Some v => fits n v
  | None => true
  end.

(** [VARCHAR(n)] limits, counted in characters.  A longer value is taken
    as refused; SQL still takes one whose excess is nothing but spaces and
    stores it cut to the limit. *)
Definition varchar_ok (m : Mention) : bool :=
  fits 10 (ticker m) && fits 50 (subreddit m) && fits 20 (post_id m)
  && fits_opt 20 (comment_id m) && fits 10 (source m)
  && fits_opt 50 (author m).

(** [DECIMAL(3,2)]: three digits, two of them after the point. *)
Definition decimal_ok (m : Mention) : bool :=
  match sentiment_score m with
  | Some v => (Z.abs v <=? 999)%Z
  | None => true
  end.

(** [CHECK (source IN ('post', 'comment'))] *)
Definition source_check (m : Mention) : bool :=
  String.eqb (source m) "post" || String.eqb (source m) "comment".

(** Two values of a nullable column as a unique index compares them: a
    [NULL] is distinct from everything, another [NULL] included. *)
Definition same_nullable (a b : option string) : bool :=
  match a, b with
  | Some x, Some y => String.eqb x y
  | _, _ => false
  end.

(** [UNIQUE(ticker, post_id, comment_id)]: does [m] collide with [r]? *)
Definition unique_conflict (m r : Mention) : bool :=
  String.eqb (ticker m) (ticker r) && String.eqb (post_id m) (post_id r)
  && same_nullable (comment_id m) (comment_id r).

Inductive SqlError : Type :=
| value_too_long
| check_violation
| unique_violation
| numeric_value_out_of_range
| object_not_in_prerequisite_state.

Inductive Result (A : Type) : Type :=
| Ok (a : A)
| Err (e : SqlError) (unchanged : A).
Arguments Ok {A} a.
Arguments Err {A} e unchanged.

Definition state_of {A : Type} (r : Result A) : A :=
  match r with
  | Ok a => a
  | Err _ a => a
  end.

(** [INSERT INTO mentions (...) VALUES (...)].  A value that does not
    fit the type of its column is refused before the sequence is asked for
    an [id]; once the [id] is drawn the sequence has moved on, also when a
    constraint refuses the row afterwards. *)
Definition insert_mention (m : Mention) (db : Database) : Result Database :=
  let n := (mentions_id_seq db + 1)%Z in
  let refused := mkDatabase (mentions db) n (mentions_hourly db) in
  if negb (varchar_ok m) then Err value_too_long db
  else if negb (decimal_ok m) then Err numeric_value_out_of_range db
  else if negb (source_check m) then Err check_violation refused
  else if existsb (unique_conflict m) (mentions db)
       then Err unique_violation refused
  else Ok (mkDatabase (mentions db ++ [set_id n m]) n (mentions_hourly db)).

End Schema.

(* ================================================================== *)
(** * The materialized view and its refresh *)
(* ================================================================== *)

Module MatView.
Import Schema.

Definition is_post (m : Mention) : bool := String.eqb (source m) "post".
Definition is_comment (m : Mention) : bool := String.eqb (source m) "comment".

Definition microseconds_per_hour : Z := 3600 * 1000000.
Definition ninety_days : Z := 90 * 24 * microseconds_per_hour.

(** The time zone of a session: the offset from UTC, in microseconds,
    that is in force at an instant. *)
Definition TimeZone : Type := Z -> Z.

Definition UTC : TimeZone := fun _ => 0%Z.

(** [DATE_TRUNC('hour', t)] of a [TIMESTAMPTZ]: the start of the hour on
    the wall clock of the session; the instant goes to the wall clock and
    back with the offset in force at [t]. *)
Definition date_trunc_hour (zone : TimeZone) (t : Z) : Z :=
  ((t + zone t) / microseconds_per_hour * microseconds_per_hour - zone t)%Z.

Definition HourlyKey : Type := (string * string * Z)%type.

Definition hourly_key (zone : TimeZone) (m : Mention) : HourlyKey :=
  (ticker m, subreddit m, date_trunc_hour zone (created_at m)).

Definition hourly_key_eqb (a b : HourlyKey) : bool :=
  let '(t1, s1, h1) := a in
  let '(t2, s2, h2) := b in
  String.eqb t1 t2 && String.eqb s1 s2 && Z.eqb h1 h2.

(** The defining query of [mentions_hourly], evaluated when [NOW()] is
    [now], in a session of time zone [zone]. *)
Definition mentions_hourly_query (zone : TimeZone) (now : Z)
           (rows : list Mention) : list HourlyRow :=
  map (fun '((t, s, h), g) =>
         mkHourlyRow t s h
                     (Sql.count_star g)
                     (Sql.sum_case is_post g)
                     (Sql.sum_case is_comment g)
                     (Sql.avg sentiment_score g))
      (Sql.group_by hourly_key_eqb (hourly_key zone)
         (filter (fun m => (now - ninety_days <=? created_at m)%Z) rows)).

Definition with_snapshot (snap : list HourlyRow) (db : Database) : Database :=
  mkDatabase (mentions db) (mentions_id_seq db) snap.

(** [REFRESH MATERIALIZED VIEW [CONCURRENTLY] mentions_hourly].  Postgres
    accepts [CONCURRENTLY] only when the view has a unique index; without
    one the statement raises an error and the stored rows stay as they
    were. *)
Definition refresh_materialized_view (indexes : list IndexDef)
           (concurrently : bool) (zone : TimeZone) (now : Z) (db : Database)
  : Result Database :=
  if concurrently && negb (existsb index_unique indexes)
  then Err object_not_in_prerequisite_state db
  else Ok (with_snapshot (mentions_hourly_query zone now (mentions db)) db).

(** The statement of [database/refresh.sql] that touches the view, run
    against the indexes the schema script creates. *)
Definition refresh_sql : TimeZone -> Z -> Database -> Result Database :=
  refresh_materialized_view mentions_hourly_indexes true.

(** The command the README gives for a manual refresh. *)
Definition refresh_plain : TimeZone -> Z -> Database -> Result Database :=
  refresh_materialized_view mentions_hourly_indexes false.

End MatView.

(* ================================================================== *)
(** * The mention store *)
(* ================================================================== *)

Module MentionStore.
Import Schema.

(** Modelled from the spec: the write path [record] lives in the Python
    worker, which is not among the sources.  The specification describes it
    as an insert that ignores a conflict on the storage-level uniqueness
    constraint ([INSERT ... ON CONFLICT DO NOTHING]): a uniqueness violation
    is a silent no-op, any other storage error is surfaced.  What counts as
    a conflict is decided by the table, not by a check of the caller. *)
Definition record (tick post : string) (comment : option string)
           (community : string) (who : option string) (occurred_at : Z)
           (snippet : option string) (source_kind : string)
           (db : Database) : Result Database :=
  let row := mkMention 0 tick community post comment source_kind occurred_at
                       who snippet None None None in
  match insert_mention row db with
  | Err unique_violation db' => Ok db'
  | r => r
  end.

(** Modelled from the spec: [count_since(ticker_or_all, community_or_all,
    since_timestamp)] returns the counts partitioned by source kind;
    [None] stands for "all". *)
Definition count_since (ticker_or_all community_or_all : option string)
           (since : Z) (db : Database) : nat * nat :=
  let wanted (sel : option string) (v : string) : bool :=
    match sel with
    | Some s => String.eqb v s
    | None => true
    end in
  let scope :=
    filter (fun m => wanted ticker_or_all (ticker m)
                     && wanted community_or_all (subreddit m)
                     && (since <=? created_at m)%Z) (mentions db) in
  (Sql.count_case MatView.is_post scope,
   Sql.count_case MatView.is_comment scope).

(** The uniqueness key of a stored row. *)
Definition triple (m : Mention) : string * string * option string :=
  (ticker m, post_id m, comment_id m).

(** The keys of the comment-level rows, the ones that carry a comment id. *)
Definition comment_keys (rows : list Mention)
  : list (string * string * string) :=
  flat_map (fun m => match comment_id m with
                     | Some c => [(ticker m, post_id m, c)]
                     | None => []
                     end) rows.

(** A run of [record] calls, each given by the row it describes. *)
Definition record_all (calls : list Mention) (db : Database) : Database :=
  fold_left (fun d m =>
               state_of (record (ticker m) (post_id m) (comment_id m)
                                (subreddit m) (author m) (created_at m)
                                (context m) (source m) d))
            calls db.

End MentionStore.

(* ================================================================== *)
(** * The ranking query of [GET /api/subreddits] *)
(* ================================================================== *)

Module RankingQuery.

(** A row of the CTE [ticker_stats]. *)
Record TickerStats : Type := mkStats {
  ticker : string;
  posts : nat;
  comments : nat;
  total_mentions : nat
}.

(** A row of the CTE [ranked_tickers]: the statistics and the
    [ROW_NUMBER()]. *)
Definition RankedTicker : Type := (TickerStats * nat)%type.
Definition stats (r : RankedTicker) : TickerStats := fst r.
Definition rank (r : RankedTicker) : nat := snd r.

(** [WHERE <timeCondition> AND subreddit = $1] *)
Definition in_scope (timeCondition : Schema.Mention -> bool) (sub : string)
           (m : Schema.Mention) : bool :=
  timeCondition m && String.eqb (Schema.subreddit m) sub.

Definition ticker_stats (timeCondition : Schema.Mention -> bool)
           (sub : string) (rows : list Schema.Mention) : list TickerStats :=
  map (fun '(t, g) =>
         mkStats t (Sql.count_case MatView.is_post g)
                   (Sql.count_case MatView.is_comment g)
                   (Sql.count_star g))
      (Sql.group_by String.eqb Schema.ticker
         (filter (in_scope timeCondition sub) rows)).

(** [ORDER BY total_mentions DESC]: [a] may go in front of [b]. *)
Definition by_total_desc (a b : TickerStats) : bool :=
  (total_mentions b <=? total_mentions a)%nat.

(** How the database engine carries out [ORDER BY total_mentions DESC].
    The statement names no second sort key, so the arrangement of rows with
    equal totals is the engine's own; it is not read off the query. *)
Definition Engine : Type := list TickerStats -> list TickerStats.

(** What the clause asks of an engine: the same rows, by falling total. *)
Definition conforming (engine : Engine) : Prop :=
  forall st, Permutation st (engine st)
             /\ StronglySorted (Sql.in_order by_total_desc) (engine st).

(** An engine that leaves equal totals in the order the groups come in. *)
Definition stable_engine : Engine := Sql.order_by by_total_desc.

(** An engine that turns the groups round first. *)
Definition reversing_engine : Engine :=
  fun st => Sql.order_by by_total_desc (rev st).

Definition ranked_tickers (engine : Engine) (st : list TickerStats)
  : list RankedTicker :=
  Sql.row_numbers (engine st).

(** The literal list of the [NOT IN] clause. *)
Definition not_in_list : list string :=
  ["T"; "RE"; "HAS"; "TECH"; "LOW"; "KEY"; "PEAK"; "FAST"; "GS"; "O"; "C";
   "F"; "K"; "A"; "B"; "D"; "E"; "G"; "H"; "I"; "J"; "L"; "M"; "N"; "P";
   "Q"; "R"; "S"; "U"; "V"; "W"; "X"; "Y"; "Z"].

(** [ticker NOT IN (...) AND LENGTH(ticker) > 1] *)
Definition passes (tick : string) : bool :=
  negb (Sql.mem String.eqb tick not_in_list)
  && (1 <? Sql.char_length tick)%nat.

(** The [WHERE] clause of the final [SELECT]. *)
Definition shown (r : RankedTicker) : bool := passes (ticker (stats r)).

(** [ORDER BY rank] *)
Definition by_rank (a b : RankedTicker) : bool := (rank a <=? rank b)%nat.

(** The whole statement: the rows [pool.query] hands back. *)
Definition query (engine : Engine) (timeCondition : Schema.Mention -> bool)
           (sub : string) (rows : list Schema.Mention) : list RankedTicker :=
  Sql.limit 10
    (Sql.order_by by_rank
       (filter shown
               (ranked_tickers engine
                               (ticker_stats timeCondition sub rows)))).

End RankingQuery.

(* ================================================================== *)
(** * The route handler [GET /api/subreddits] *)
(* ================================================================== *)

Module SubredditsRoute.

(** ** [Math.random] as threaded state

    The generator is an unknown sequence of draws; each call takes the
    next one.  Draws and the [change] computed from them are exact
    rationals standing for the doubles of the runtime. *)

Definition Rng : Type := nat -> Q.
Definition M (A : Type) : Type := Rng -> A * Rng.

Definition ret {A : Type} (a : A) : M A := fun g => (a, g).

Definition bind {A B : Type} (m : M A) (k : A -> M B) : M B :=
  fun g => let (a, g') := m g in k a g'.

Notation "x <- m ;; k" := (bind m (fun x => k))
  (at level 61, m at next level, right associativity).

Definition Math_random : M Q := fun g => (g 0, fun n => g (S n)).

Definition run {A : Type} (m : M A) (g : Rng) : A := fst (m g).

(** [Array.prototype.map] with the index passed to an effectful callback. *)
Fixpoint map_indexed {A B : Type} (f : A -> nat -> M B) (index : nat)
         (l : list A) : M (list B) :=
  match l with
  | [] => ret []
  | a :: rest =>
      b <- f a index ;;
      bs <- map_indexed f (S index) rest ;;
      ret (b :: bs)
  end.

(** ** The handler *)

Record TickerData : Type := mkTickerData {
  rank : nat;
  ticker : string;
  posts : nat;
  comments : nat;
  change : Q
}.

Inductive Response : Type :=
| json (subreddits : list (string * list TickerData)) (timeRange : string)
| json_error (error : string) (status : nat).

(** The connection pool: either it reaches a database, run by some
    engine, or every query throws. *)
Inductive Pool : Type :=
| connected (engine : RankingQuery.Engine) (db : Schema.Database)
| unreachable.

Definition day_ms : Z := 24 * 60 * 60 * 1000.

(** The [switch] on [timeRange]: the length of the window in milliseconds. *)
Definition window_ms (timeRange : string) : Z :=
  if String.eqb timeRange "daily" then day_ms
  else if String.eqb timeRange "weekly" then 7 * day_ms
  else if String.eqb timeRange "monthly" then 30 * day_ms
  else day_ms.

(** [created_at >= '<now - window as ISO string>'] *)
Definition timeCondition (timeRange : string) (now : Z)
           (m : Schema.Mention) : bool :=
  ((now - window_ms timeRange) * 1000 <=? Schema.created_at m)%Z.

Definition subreddits : list string :=
  ["pennystocks"; "TheRaceTo10Million"; "SecurityAnalysis"; "investing";
   "stocks"].

Definition pool_query (pool : Pool) (cond : Schema.Mention -> bool)
           (subreddit : string) : option (list RankingQuery.RankedTicker) :=
  match pool with
  | connected engine db =>
      Some (RankingQuery.query engine cond subreddit (Schema.mentions db))
  | unreachable => None
  end.

(** The callback of [result.rows.map]. [parseInt] of a count is the count. *)
Definition to_ticker_data (row : RankingQuery.RankedTicker) (index : nat)
  : M TickerData :=
  r <- Math_random ;;
  ret (mkTickerData (index + 1)
                    (RankingQuery.ticker (RankingQuery.stats row))
                    (RankingQuery.posts (RankingQuery.stats row))
                    (RankingQuery.comments (RankingQuery.stats row))
                    (r * (40 # 1) - (20 # 1))%Q).

(** The [for] loop; [None] is the exception that reaches the [catch]. *)
Fixpoint subredditData (pool : Pool) (cond : Schema.Mention -> bool)
         (subs : list string) : M (option (list (string * list TickerData))) :=
  match subs with
  | [] => ret (Some [])
  | subreddit :: rest =>
      match pool_query pool cond subreddit with
      | None => ret None
      | Some rows =>
          data <- map_indexed to_ticker_data 0 rows ;;
          others <- subredditData pool cond rest ;;
          ret (option_map (cons (subreddit, data)) others)
      end
  end.

(** [searchParams.get(name) || fallback]: an absent or empty parameter
    gives the fallback. *)
Definition or_default (param : option string) (fallback : string) : string :=
  match param with
  | Some s => if String.eqb s "" then fallback else s
  | None => fallback
  end.

(** The two exits of the [try]: the JSON body, or status 500 from the
    [catch]. *)
Definition respond (data : option (list (string * list TickerData)))
           (timeRange : string) : Response :=
  match data with
  | Some d => json d timeRange
  | None => json_error "Failed to fetch subreddit data" 500
  end.

Definition GET (timeRangeParam : option string) (now : Z) (pool : Pool)
  : M Response :=
  let timeRange := or_default timeRangeParam "daily" in
  data <- subredditData pool (timeCondition timeRange now) subreddits ;;
  ret (respond data timeRange).

(** A row without its [change] column. *)
Definition core (d : TickerData) : nat * string * nat * nat :=
  (rank d, ticker d, posts d, comments d).

Definition core_of_subreddit (e : string * list TickerData)
  : string * list (nat * string * nat * nat) :=
  (fst e, map core (snd e)).

(** What a response says apart from the [change] column. *)
Definition without_change (r : Response)
  : option (list (string * list (nat * string * nat * nat)) * string) :=
  match r with
  | json subs tr => Some (map core_of_subreddit subs, tr)
  | json_error _ _ => None
  end.

End SubredditsRoute.

(* ================================================================== *)
(** * The mention extractor *)
(* ================================================================== *)

Module Extractor.

Definition between (lo hi : nat) (c : ascii) : bool :=
  (lo <=? nat_of_ascii c)%nat && (nat_of_ascii c <=? hi)%nat.

Definition is_upper : ascii -> bool := between 65 90.
Definition is_lower : ascii -> bool := between 97 122.
Definition is_digit : ascii -> bool := between 48 57.
Definition is_letter (c : ascii) : bool := is_upper c || is_lower c.
Definition is_alnum (c : ascii) : bool := is_letter c || is_digit c.

Definition to_upper (c : ascii) : ascii :=
  if is_lower c then ascii_of_nat (nat_of_ascii c - 32) else c.

(** A maximal alphanumeric run of the text, with what surrounds it. *)
Record Token : Type := mkToken {
  dollar : bool;              (* the character just before is [$] *)
  word : list ascii;
  following : list ascii      (* the text right after the run *)
}.

Fixpoint take_word (l : list ascii) : list ascii :=
  match l with
  | c :: rest => if is_alnum c then c :: take_word rest else []
  | [] => []
  end.

Fixpoint drop_word (l : list ascii) : list ascii :=
  match l with
  | c :: rest => if is_alnum c then drop_word rest else l
  | [] => []
  end.

(** A token starts at every alphanumeric character that follows a
    non-alphanumeric one; [prev] is the character before [l]. *)
Fixpoint tokens_after (prev : ascii) (l : list ascii) : list Token :=
  match l with
  | [] => []
  | c :: rest =>
      if is_alnum c && negb (is_alnum prev)
      then mkToken (Ascii.eqb prev "$") (c :: take_word rest) (drop_word rest)
             :: tokens_after c rest
      else tokens_after c rest
  end.

(** The edge of the string counts as a non-alphanumeric character. *)
Definition tokens (text : string) : list Token :=
  tokens_after " " (list_ascii_of_string text).

(** Modelled from the spec: the ticker reference set handed to the
    extractor by the reference-data sync, which is not among the sources: the
    valid symbols, the ambiguous-word blocklist, and the reviewable list of
    blocklisted symbols that a strong signal promotes. *)
Record ReferenceSet : Type := mkReferenceSet {
  symbols : list string;
  blocklist : list string;
  context_override : list string
}.

Definition symbol (t : Token) : string :=
  string_of_list_ascii (map to_upper (word t)).

(** One to five uppercase letters and nothing else. *)
Definition ticker_shaped (w : list ascii) : bool :=
  forallb is_upper w && (1 <=? List.length w)%nat
  && (List.length w <=? 5)%nat.

Definition known (R : ReferenceSet) (s : string) : bool :=
  Sql.mem String.eqb s (symbols R).

(** On the blocklist, or a single-letter symbol. *)
Definition ambiguous (R : ReferenceSet) (s : string) : bool :=
  Sql.mem String.eqb s (blocklist R) || (String.length s =? 1)%nat.

(** Rule 3: the token is followed by an apostrophe and a letter. *)
Definition contraction (t : Token) : bool :=
  match following t with
  | a :: c :: _ => Ascii.eqb a "'" && is_letter c
  | _ => false
  end.

(** Rule 1: explicit cashtag of a known symbol. *)
Definition cashtag (R : ReferenceSet) (t : Token) : bool :=
  dollar t && ticker_shaped (word t) && known R (symbol t).

(** A strong ticker signal in the text: some cashtag of a known symbol. *)
Definition strong_signal (R : ReferenceSet) (toks : list Token) : bool :=
  existsb (cashtag R) toks.

(** Rules 2 and 3: bare uppercase token of a known, unambiguous symbol
    that is not the head of a contraction. *)
Definition bare (R : ReferenceSet) (t : Token) : bool :=
  ticker_shaped (word t) && known R (symbol t)
  && negb (ambiguous R (symbol t)) && negb (contraction t).

(** Rule 4: a blocklisted symbol of the override list, promoted when the
    text carries a strong signal. *)
Definition promoted (R : ReferenceSet) (strong : bool) (t : Token) : bool :=
  ticker_shaped (word t) && known R (symbol t)
  && ambiguous R (symbol t)
  && Sql.mem String.eqb (symbol t) (context_override R)
  && negb (contraction t) && strong.

(** The rules in precedence order; the first that applies wins. *)
Definition accepted (R : ReferenceSet) (strong : bool) (t : Token) : bool :=
  if cashtag R t then true
  else if bare R t then true
  else promoted R strong t.

(** Modelled from the spec: [extract_tickers] is part of the Python worker,
    which is not among the sources.  The result lists each symbol once. *)
Definition extract (text : string) (R : ReferenceSet) : list string :=
  let toks := tokens text in
  Sql.distinct String.eqb
    (map symbol (filter (accepted R (strong_signal R toks)) toks)).

End Extractor.

(* ================================================================== *)
(** * Properties under study and sample data *)
(* ================================================================== *)

Module Samples.
Import Schema.

(** A post-level mention: no comment id, source kind [post]. *)
Definition post_row (tick post : string) (at_time : Z) : Mention :=
  mkMention 0 tick "stocks" post None "post" at_time None None None None None.

(** A comment-level mention. *)
Definition comment_row (tick post comment : string) (at_time : Z) : Mention :=
  mkMention 0 tick "stocks" post (Some comment) "comment" at_time
            None None None None None.

Definition insert_all (rows : list Mention) (db : Database) : Database :=
  fold_left (fun d m => state_of (insert_mention m d)) rows db.

(** One mention of TSLA, then one of AAPL: equal totals. *)
Definition tied_db : Database :=
  insert_all [post_row "TSLA" "p1" 1000; post_row "AAPL" "p2" 2000] empty_db.

(** Three mentions of AAPL and one of TSLA, the example of the
    specification, with a comment among them. *)
Definition ranked_db : Database :=
  insert_all [post_row "TSLA" "p1" 1000; post_row "AAPL" "p1" 1500;
              post_row "AAPL" "p2" 2000; comment_row "AAPL" "p2" "c1" 2500]
             empty_db.

(** A mention of the ticker IT has made it into the table. *)
Definition anomaly_db : Database :=
  insert_all [post_row "IT" "p1" 1000; post_row "T" "p2" 1500;
              post_row "NVDA" "p3" 2000] empty_db.

(** Twelve tickers in one subreddit, more than [LIMIT 10] lets through. *)
Definition crowded_db : Database :=
  insert_all (map (fun t => post_row t "p1" 1000)
                  ["AAPL"; "TSLA"; "NVDA"; "MSFT"; "AMD"; "AMZN"; "META";
                   "GOOGL"; "PLTR"; "SOFI"; "SPY"; "QQQ"]) empty_db.


Definition first_draws (a b : Q) : SubredditsRoute.Rng :=
  fun n => match n with
           | 0 => a
           | _ => b
           end.

End Samples.

Module Claims.
Import RankingQuery.

(** Descending total, and among equal totals ascending symbol: [a] is
    listed before [b]. *)
Definition total_then_symbol (a b : RankedTicker) : Prop :=
  total_mentions (stats b) < total_mentions (stats a)
  \/ (total_mentions (stats a) = total_mentions (stats b)
      /\ String.compare (ticker (stats a)) (ticker (stats b)) = Lt).

Definition total_descending (a b : RankedTicker) : Prop :=
  total_mentions (stats b) <= total_mentions (stats a).

(** The ranking as the specification words it: whatever engine carries
    the statement out, the rows come back by falling total and, among equal
    totals, by rising symbol. *)
Definition ties_in_symbol_order : Prop :=
  forall engine, conforming engine ->
  forall (cond : Schema.Mention -> bool) (sub : string)
         (rows : list Schema.Mention),
    StronglySorted total_then_symbol (query engine cond sub rows).

(** Modelled from the spec: the ambiguous-word blocklist of the extractor
    is part of the Python worker, which is not among the sources; these are
    the members the specification names (the project notes in [plan.md]
    and [prd.md] name the same words). *)
Definition common_word_blocklist : list string :=
  ["A"; "I"; "IT"; "BE"; "FOR"; "ARE"; "ON"; "AT"].

(** The rows a mention belongs to when [ticker_stats] counts for [tick]. *)
Definition counted_for (cond : Schema.Mention -> bool) (sub tick : string)
           (rows : list Schema.Mention) : list Schema.Mention :=
  filter (fun m => in_scope cond sub m && String.eqb (Schema.ticker m) tick)
         rows.

(** The table satisfies its [CHECK] constraint. *)
Definition source_checked (rows : list Schema.Mention) : Prop :=
  Forall (fun m => Schema.source_check m = true) rows.

(** The rows a mention belongs to when [mentions_hourly] counts for the
    ticker, the subreddit and the hour of [h]. *)
Definition counted_in_hour (zone : MatView.TimeZone) (now : Z)
           (h : Schema.HourlyRow) (rows : list Schema.Mention)
  : list Schema.Mention :=
  filter (fun m => (now - MatView.ninety_days <=? Schema.created_at m)%Z
                   && MatView.hourly_key_eqb
                        (MatView.hourly_key zone m)
                        (Schema.h_ticker h, Schema.h_subreddit h,
                         Schema.bucket_hour h))
         rows.

Definition same_set (a b : list string) : Prop :=
  forall s, In s a <-> In s b.

(** Two reference sets with the same members. *)
Definition same_reference (R R' : Extractor.ReferenceSet) : Prop :=
  same_set (Extractor.symbols R) (Extractor.symbols R')
  /\ same_set (Extractor.blocklist R) (Extractor.blocklist R')
  /\ same_set (Extractor.context_override R) (Extractor.context_override R').

(** The text right after a cashtag does not continue the word. *)
Definition word_bounded (post : string) : Prop :=
  match post with
  | EmptyString => True
  | String c _ => Extractor.is_alnum c = false
  end.

End Claims.

(* ================================================================== *)
(** * The subreddit configuration table *)
(* ================================================================== *)

Module SubredditConfig.

(** A row of [subreddit_config]; [dd_weight] is [DECIMAL(3,2)], kept in
    hundredths. *)
Record Config : Type := mkConfig {
  subreddit : string;            (* PRIMARY KEY *)
  is_active : bool;
  dd_weight : Z;
  last_processed : option Z;
  total_mentions : Z
}.


Definition has_subreddit (name : string) (t : list Config) : bool :=
  existsb (fun c => String.eqb (subreddit c) name) t.

(** One row of [INSERT ... ON CONFLICT (subreddit) DO NOTHING]: a row for a
    subreddit already present is dropped; the columns the statement does
    not name take their defaults. *)
Definition insert_do_nothing (v : string * bool * Z) (t : list Config)
  : list Config :=
  let '(name, active, weight) := v in
  if has_subreddit name t then t
  else t ++ [mkConfig name active weight None 0%Z].





End SubredditConfig.

(* ================================================================== *)
(** * The due-diligence route: [getTimeAgo] *)
(* ================================================================== *)

Module DueDiligenceRoute.

Local Open Scope Z_scope.

(** A JavaScript integer in a template string. *)
Definition show (n : Z) : string := NilZero.string_of_int (Z.to_int n).

(** [`${n} unit${n === 1 ? '' : 's'} ago`] *)
Definition ago (n : Z) (unit : string) : string :=
  (show n ++ " " ++ unit ++ (if Z.eqb n 1 then "" else "s") ++ " ago")%string.

(** [getTimeAgo(date)], with the clock read as [now]; both in
    milliseconds, [Math.floor] of a quotient is the floored division. *)
Definition getTimeAgo (now date : Z) : string :=
  let diffMs := now - date in
  let diffHours := diffMs / (1000 * 60 * 60) in
  let diffDays := diffHours / 24 in
  if 0 <? diffDays then ago diffDays "day"
  else if 0 <? diffHours then ago diffHours "hour"
  else
    let diffMinutes := diffMs / (1000 * 60) in
    ago diffMinutes "minute".

End DueDiligenceRoute.

(* ================================================================== *)
(** * The API client of the dashboard: [hashString] and [mergeRows] *)
(* ================================================================== *)

Module ApiClient.

Local Open Scope Z_scope.

(** ** 32-bit integer operations of JavaScript *)

Definition two32 : Z := 2 ^ 32.

Definition ToUint32 (x : Z) : Z := x mod two32.

Definition ToInt32 (x : Z) : Z :=
  let m := x mod two32 in
  if m <? 2 ^ 31 then m else m - two32.

(** [a ^ b] *)
Definition bitxor (a b : Z) : Z := Z.lxor (ToInt32 a) (ToInt32 b).

(** [Math.imul(a, b)] *)
Definition imul (a b : Z) : Z := ToInt32 (ToUint32 a * ToUint32 b).

(** [hashString], on the UTF-16 code units of the string. *)
Definition hashString (codes : list Z) : Z :=
  ToUint32 (fold_left (fun h c => imul (bitxor h c) 16777619)
                      codes 2166136261).

(** The same recurrence on unsigned 32-bit words: 32-bit FNV-1a. *)
Definition fnv1a (codes : list Z) : Z :=
  fold_left (fun h c => (Z.lxor h c * 16777619) mod two32) codes 2166136261.

(** ** [mergeRows] *)

(** [TickerMention]; the counts are integers. *)
Record TickerMention : Type := mkTickerMention {
  ticker : string;
  comments : Z;
  threads : Z
}.

(** One turn of the inner loop: the entry of the [Map] for the ticker of
    [r], or a fresh zero entry, grows by [r]; a [Map] keeps its keys in
    order of first insertion. *)
Fixpoint add_row (r : TickerMention) (entries : list TickerMention)
  : list TickerMention :=
  match entries with
  | [] => [mkTickerMention (ticker r) (0 + comments r) (0 + threads r)]
  | prev :: rest =>
      if String.eqb (ticker prev) (ticker r)
      then mkTickerMention (ticker prev) (comments prev + comments r)
                           (threads prev + threads r) :: rest
      else prev :: add_row r rest
  end.

(** [(a, b) => b.comments - a.comments] is negative or zero: [a] stays in
    front of [b]. *)
Definition by_comments_desc (a b : TickerMention) : bool :=
  comments b <=? comments a.

Definition merged (listOfRows : list (list TickerMention))
  : list TickerMention :=
  fold_left (fun entries r => add_row r entries) (List.concat listOfRows) [].

Definition mergeRows (listOfRows : list (list TickerMention)) (limit : nat)
  : list TickerMention :=
  firstn limit (Sql.order_by by_comments_desc (merged listOfRows)).

(** All rows handed in for a ticker. *)
Definition rows_of (tick : string) (listOfRows : list (list TickerMention))
  : list TickerMention :=
  filter (fun r => String.eqb (ticker r) tick) (List.concat listOfRows).

Definition sum (f : TickerMention -> Z) (rows : list TickerMention) : Z :=
  fold_right (fun r acc => f r + acc) 0 rows.

End ApiClient.

(* ================================================================== *)
(** * The pages: [TickerMentions] and [DueDiligenceContent] *)
(* ================================================================== *)

Module Pages.
Import SubredditsRoute.

Record Data : Type := mkData {
  overall : list TickerData;
  pennystocks : list TickerData;
  TheRaceTo10Million : list TickerData
}.

Record PageState : Type := mkPageState {
  data : Data;
  loading : bool;
  error : option string
}.

(** [subredditData.subreddits?.<key> || []] on the parsed body. *)
Definition subreddit_rows (key : string) (body : Response)
  : list TickerData :=
  match body with
  | json subs _ =>
      match find (fun e => String.eqb (fst e) key) subs with
      | Some e => snd e
      | None => []
      end
  | json_error _ _ => []
  end.

(** [fetchData] of [TickerMentions].  Each argument is what one
    [fetch(...).json()] gave, [None] when it threw; the body of
    [/api/mentions] is given by its [tickers] field, if it has one. *)
Definition fetchData (st : PageState)
           (overallData : option (option (list TickerData)))
           (subredditData : option Response) : PageState :=
  match overallData, subredditData with
  | Some tickers, Some body =>
      mkPageState
        (mkData (match tickers with
                 | Some rows => rows
                 | None => []
                 end)
                (subreddit_rows "pennystocks" body)
                (subreddit_rows "TheRaceTo10Million" body))
        false None
  | _, _ => mkPageState (data st) false (Some "Failed to load ticker data")
  end.

(** [toggleTicker], [toggleSubreddit] and [toggleTag] of
    [DueDiligenceContent]: the state update they all pass to the setter. *)
Definition toggle (x : string) (prev : list string) : list string :=
  if existsb (String.eqb x) prev
  then filter (fun t => negb (String.eqb t x)) prev
  else prev ++ [x].

End Pages.

(* ================================================================== *)
(** * The table card of the dashboard *)
(* ================================================================== *)

Module TableCard.

Local Open Scope Z_scope.




End TableCard.

(* ================================================================== *)
(** * Further properties under study *)
(* ================================================================== *)

Module Extras.

(** The subreddit data of a response, if it has any. *)
Definition body (r : SubredditsRoute.Response)
  : option (list (string * list SubredditsRoute.TickerData)) :=
  match r with
  | SubredditsRoute.json subs _ => Some subs
  | SubredditsRoute.json_error _ _ => None
  end.

(** The engine behind the pool, if there is one, keeps to the [ORDER BY]
    clause. *)
Definition pool_conforming (pool : SubredditsRoute.Pool) : Prop :=
  match pool with
  | SubredditsRoute.connected engine _ => RankingQuery.conforming engine
  | SubredditsRoute.unreachable => True
  end.

(** The rows stored by a run of plain inserts on the fresh database. *)
Definition stored (rows : list Schema.Mention) : list Schema.Mention :=
  Schema.mentions (Samples.insert_all rows Schema.empty_db).

(** Every column constraint of [mentions] at once. *)
Definition row_valid (m : Schema.Mention) : bool :=
  Schema.varchar_ok m && Schema.decimal_ok m && Schema.source_check m.

Fixpoint increasing (l : list Z) : Prop :=
  match l with
  | [] => True
  | a :: rest => Forall (fun b => (a < b)%Z) rest /\ increasing rest
  end.




(** The rows the view is computed from when [NOW()] is [now]. *)
Definition in_view_window (now : Z) (rows : list Schema.Mention)
  : list Schema.Mention :=
  filter (fun m => (now - MatView.ninety_days <=? Schema.created_at m)%Z)
         rows.

Definition view_key (h : Schema.HourlyRow) : MatView.HourlyKey :=
  (Schema.h_ticker h, Schema.h_subreddit h, Schema.bucket_hour h).

End Extras.

(* ================================================================== *)
(** * Facts about the SQL toolkit *)
(* ================================================================== *)

Module SqlFacts.
Import Sql.

Section Membership.
Context {K : Type} (eqb : K -> K -> bool).
Hypothesis eqb_spec : forall a b, eqb a b = true <-> a = b.

Lemma mem_In (k : K) (l : list K) : mem eqb k l = true <-> In k l.
Proof.
  unfold mem. rewrite existsb_exists. split.
  - intros [x [Hin Hx]]. apply eqb_spec in Hx. now subst.
  - intros Hin. exists k. split; [assumption | now apply eqb_spec].
Qed.

Lemma distinct_from_In (l seen : list K) (k : K) :
  In k (distinct_from eqb seen l) <-> In k l /\ ~ In k seen.
Proof.
  revert seen. induction l as [|a l IH]; intros seen; simpl.
  - tauto.
  - destruct (mem eqb a seen) eqn:Hm.
    + apply mem_In in Hm. rewrite IH. split.
      * intros [H1 H2]. auto.
      * intros [[->|H1] H2]; [contradiction | auto].
    + assert (Hn : ~ In a seen).
      { intros H. apply mem_In in H. congruence. }
      simpl. rewrite IH. simpl. split.
      * intros [->|[H1 H2]]; [auto | split; [auto | tauto]].
      * intros [[->|H1] H2]; [auto |].
        destruct (eqb a k) eqn:Hak.
        -- apply eqb_spec in Hak. auto.
        -- right. split; [assumption |].
           intros [->|H3]; [| contradiction].
           assert (eqb k k = true) by now apply eqb_spec.
           congruence.
Qed.

Lemma distinct_In (l : list K) (k : K) : In k (distinct eqb l) <-> In k l.
Proof. unfold distinct. rewrite distinct_from_In. simpl. tauto. Qed.

Lemma distinct_from_NoDup (l seen : list K) :
  NoDup (distinct_from eqb seen l).
Proof.
  revert seen. induction l as [|a l IH]; intros seen; simpl.
  - constructor.
  - destruct (mem eqb a seen); [apply IH |].
    constructor; [| apply IH].
    rewrite distinct_from_In. simpl. tauto.
Qed.
End Membership.

Lemma filter_filter {A : Type} (p q : A -> bool) (l : list A) :
  filter p (filter q l) = filter (fun x => q x && p x) l.
Proof.
  induction l as [|a l IH]; simpl; [reflexivity |].
  destruct (q a); simpl; [destruct (p a) |]; now rewrite IH.
Qed.

Lemma sum_case_count_case {Row : Type} (p : Row -> bool) (rows : list Row) :
  sum_case p rows = count_case p rows.
Proof.
  unfold sum_case, count_case.
  induction rows as [|r rows IH]; simpl; [reflexivity |].
  destruct (p r); simpl; now rewrite IH.
Qed.

(** A two-way split of the rows splits the count. *)
Lemma count_case_partition {Row : Type} (p q : Row -> bool)
      (rows : list Row) :
  Forall (fun r => xorb (p r) (q r) = true) rows ->
  count_case p rows + count_case q rows = count_star rows.
Proof.
  unfold count_case, count_star.
  induction 1 as [|r rows Hr _ IH]; simpl; [reflexivity |].
  destruct (p r), (q r); simpl in *; try discriminate; lia.
Qed.

Lemma group_by_In {Row K : Type} (eqb : K -> K -> bool) (key : Row -> K)
      (rows : list Row) (k : K) (g : list Row) :
  In (k, g) (group_by eqb key rows) ->
  g = filter (fun r => eqb (key r) k) rows.
Proof.
  unfold group_by. rewrite in_map_iff.
  intros [k' [Heq _]]. now inversion Heq.
Qed.

Section Ordering.
Context {Row : Type} (before : Row -> Row -> bool).

Hypothesis before_total : forall a b, before a b = false -> before b a = true.
Hypothesis before_trans :
  forall a b c, before a b = true -> before b c = true -> before a c = true.

Lemma insert_sorted_In (x a : Row) (l : list Row) :
  In a (insert_sorted before x l) <-> a = x \/ In a l.
Proof.
  induction l as [|y l IH]; simpl.
  - intuition.
  - destruct (before x y); simpl; [intuition | rewrite IH; intuition].
Qed.

Lemma insert_sorted_keeps (x : Row) (l : list Row) :
  StronglySorted (in_order before) l -> StronglySorted (in_order before) (insert_sorted before x l).
Proof.
  induction 1 as [|y l Hs IH Hall]; simpl.
  - repeat constructor.
  - destruct (before x y) eqn:Hxy.
    + constructor; [now constructor |].
      constructor; [exact Hxy |].
      rewrite Forall_forall in *. intros z Hz.
      apply (before_trans x y z Hxy). now apply Hall.
    + constructor; [exact IH |].
      rewrite Forall_forall in *. intros z Hz.
      apply insert_sorted_In in Hz as [->|Hz].
      * now apply before_total.
      * now apply Hall.
Qed.

Lemma order_by_sorted (l : list Row) : StronglySorted (in_order before) (order_by before l).
Proof.
  induction l as [|x l IH]; simpl; [constructor |].
  now apply insert_sorted_keeps.
Qed.

Lemma order_by_In (a : Row) (l : list Row) :
  In a (order_by before l) <-> In a l.
Proof.
  induction l as [|x l IH]; simpl; [tauto |].
  rewrite insert_sorted_In, IH. intuition.
Qed.

Lemma order_by_length (l : list Row) :
  List.length (order_by before l) = List.length l.
Proof.
  induction l as [|x l IH]; simpl; [reflexivity |].
  rewrite <- IH. generalize (order_by before l) as s.
  induction s as [|y s IHs]; simpl; [reflexivity |].
  destruct (before x y); simpl; [reflexivity | now rewrite IHs].
Qed.

Lemma insert_sorted_Permutation (x : Row) (l : list Row) :
  Permutation (x :: l) (insert_sorted before x l).
Proof.
  induction l as [|y l IH]; simpl; [reflexivity |].
  destruct (before x y); [reflexivity |].
  rewrite perm_swap. now apply perm_skip.
Qed.

Lemma order_by_Permutation (l : list Row) :
  Permutation l (order_by before l).
Proof.
  induction l as [|x l IH]; simpl; [reflexivity |].
  rewrite <- insert_sorted_Permutation. now apply perm_skip.
Qed.

(** Ordering an ordered list changes nothing. *)
Lemma order_by_fixpoint (l : list Row) :
  StronglySorted (in_order before) l -> order_by before l = l.
Proof.
  induction 1 as [|x l Hs IH Hall]; simpl; [reflexivity |].
  rewrite IH. destruct l as [|y l]; simpl; [reflexivity |].
  inversion Hall as [|? ? Hxy _]; subst. unfold in_order in Hxy. now rewrite Hxy.
Qed.
End Ordering.

Lemma StronglySorted_filter {A : Type} (R : A -> A -> Prop) (p : A -> bool)
      (l : list A) :
  StronglySorted R l -> StronglySorted R (filter p l).
Proof.
  induction 1 as [|x l Hs IH Hall]; simpl; [constructor |].
  destruct (p x); [| exact IH].
  constructor; [exact IH |].
  rewrite Forall_forall in *. intros y Hy.
  apply filter_In in Hy as [Hy _]. now apply Hall.
Qed.

Lemma firstn_In {A : Type} (n : nat) (l : list A) (a : A) :
  In a (firstn n l) -> In a l.
Proof.
  revert l. induction n as [|n IH]; intros [|x l]; simpl; try tauto.
  intros [->|H]; [now left | right; now apply IH].
Qed.

Lemma StronglySorted_firstn {A : Type} (R : A -> A -> Prop) (n : nat)
      (l : list A) :
  StronglySorted R l -> StronglySorted R (firstn n l).
Proof.
  intros Hs. revert n. induction Hs as [|x l Hs IH Hall]; intros [|n]; simpl;
    try constructor.
  - apply IH.
  - rewrite Forall_forall in *. intros y Hy. apply Hall.
    now apply firstn_In in Hy.
Qed.

Lemma StronglySorted_weaken {A : Type} (R R' : A -> A -> Prop) (l : list A) :
  (forall a b, R a b -> R' a b) -> StronglySorted R l -> StronglySorted R' l.
Proof.
  intros Himp. induction 1 as [|x l Hs IH Hall]; constructor; [exact IH |].
  rewrite Forall_forall in *. intros y Hy. apply Himp. now apply Hall.
Qed.

Lemma limit_length {A : Type} (n : nat) (l : list A) :
  List.length (limit n l) <= n.
Proof.
  unfold limit. revert l. induction n as [|n IH]; intros [|x l]; simpl;
    try lia.
  specialize (IH l). lia.
Qed.

(** Row numbers grow along the list, and leave the order of the rows as
    it is. *)
Lemma row_numbers_sorted {A : Type} (R : A -> A -> Prop) (l : list A)
      (start : nat) :
  StronglySorted R l ->
  StronglySorted (fun a b => R (fst a) (fst b) /\ snd a < snd b)
                 (combine l (seq start (List.length l))).
Proof.
  intros Hs. revert start.
  induction Hs as [|x l Hs IH Hall]; intros start; simpl; [constructor |].
  constructor; [apply IH |].
  rewrite Forall_forall in *. intros [y n] Hy. simpl. split.
  - apply Hall. now apply in_combine_l in Hy.
  - apply in_combine_r in Hy. apply in_seq in Hy. lia.
Qed.

Lemma row_numbers_rows {A : Type} (l : list A) :
  map fst (row_numbers l) = l.
Proof.
  unfold row_numbers. generalize 1 as start.
  induction l as [|x l IH]; intros start; simpl; [reflexivity |].
  now rewrite IH.
Qed.

Lemma row_numbers_length {A : Type} (l : list A) :
  List.length (row_numbers l) = List.length l.
Proof.
  rewrite <- (row_numbers_rows l) at 2. now rewrite length_map.
Qed.

(** Every row gets a number. *)
Lemma row_numbers_In {A : Type} (l : list A) (a : A) :
  In a l -> exists n, In (a, n) (row_numbers l).
Proof.
  intros Hin. rewrite <- (row_numbers_rows l) in Hin.
  apply in_map_iff in Hin as [[b n] [Hb Hin]].
  simpl in Hb. subst b. now exists n.
Qed.

Lemma StronglySorted_any {A : Type} (l : list A) :
  StronglySorted (fun _ _ => True) l.
Proof.
  induction l as [|x l IH]; constructor; [exact IH |].
  apply Forall_forall. auto.
Qed.

Lemma filter_nonempty {A : Type} (p : A -> bool) (l : list A) (a : A) :
  In a l -> p a = true -> filter p l <> [].
Proof.
  intros Hin Hp Hnil.
  assert (H : In a (filter p l)) by (apply filter_In; auto).
  rewrite Hnil in H. contradiction.
Qed.

Lemma filter_length_all {A : Type} (p : A -> bool) (l : list A) :
  List.length (filter p l) <= List.length l.
Proof.
  induction l as [|a l IH]; simpl; [lia |].
  destruct (p a); simpl; lia.
Qed.

End SqlFacts.

(* ================================================================== *)
(** * The ranking query *)
(* ================================================================== *)

Module RankingFacts.
Import Sql SqlFacts RankingQuery.

Lemma by_total_desc_total (a b : TickerStats) :
  by_total_desc a b = false -> by_total_desc b a = true.
Proof.
  unfold by_total_desc. rewrite Nat.leb_gt, Nat.leb_le. lia.
Qed.

Lemma by_total_desc_trans (a b c : TickerStats) :
  by_total_desc a b = true -> by_total_desc b c = true ->
  by_total_desc a c = true.
Proof.
  unfold by_total_desc. rewrite !Nat.leb_le. lia.
Qed.

(** Leaving equal totals as they come is one way to carry the clause
    out. *)
Lemma stable_engine_conforming : conforming stable_engine.
Proof.
  intros st. unfold stable_engine. split.
  - apply order_by_Permutation.
  - apply order_by_sorted.
    + exact by_total_desc_total.
    + exact by_total_desc_trans.
Qed.

(** Turning the groups round first is another. *)
Lemma reversing_engine_conforming : conforming reversing_engine.
Proof.
  intros st. unfold reversing_engine. split.
  - eapply Permutation_trans;
      [apply Permutation_rev | apply order_by_Permutation].
  - apply order_by_sorted.
    + exact by_total_desc_total.
    + exact by_total_desc_trans.
Qed.

(** Two rows with equal totals: the one engine numbers them as they
    come, the other the other way round, whatever their tickers. *)
Lemma tied_pair_either_way (a b : TickerStats) :
  total_mentions a = total_mentions b ->
  ranked_tickers stable_engine [a; b] = [(a, 1); (b, 2)]
  /\ ranked_tickers reversing_engine [a; b] = [(b, 1); (a, 2)].
Proof.
  intros Heq.
  unfold ranked_tickers, stable_engine, reversing_engine, row_numbers.
  simpl. unfold by_total_desc. rewrite Heq, Nat.leb_refl. simpl. auto.
Qed.

(** Whatever the engine does, the row numbers of [ranked_tickers] grow
    along the list. *)
Lemma ranked_tickers_numbered (engine : Engine) (st : list TickerStats) :
  StronglySorted (in_order by_rank) (ranked_tickers engine st).
Proof.
  unfold ranked_tickers, row_numbers.
  eapply StronglySorted_weaken;
    [| apply (row_numbers_sorted (fun _ _ => True)), StronglySorted_any].
  intros a b [_ Hlt]. unfold in_order, by_rank, rank.
  apply Nat.leb_le. lia.
Qed.

(** With an engine that keeps to the clause, the CTE [ranked_tickers]
    lists the statistics by falling total, with row numbers that grow. *)
Lemma ranked_tickers_sorted (engine : Engine) (st : list TickerStats) :
  conforming engine ->
  StronglySorted
    (fun a b => by_total_desc (stats a) (stats b) = true /\ rank a < rank b)
    (ranked_tickers engine st).
Proof.
  intros Hc. unfold ranked_tickers, row_numbers.
  apply (row_numbers_sorted (fun a b => by_total_desc a b = true)).
  apply (Hc st).
Qed.

(** [ORDER BY rank] finds the filtered rows already in place. *)
Lemma query_unfold (engine : Engine) (cond : Schema.Mention -> bool)
      (sub : string) (rows : list Schema.Mention) :
  query engine cond sub rows
  = limit 10
      (filter shown (ranked_tickers engine (ticker_stats cond sub rows))).
Proof.
  unfold query. f_equal. apply order_by_fixpoint.
  apply StronglySorted_filter, ranked_tickers_numbered.
Qed.

Lemma query_sorted (engine : Engine) (cond : Schema.Mention -> bool)
      (sub : string) (rows : list Schema.Mention) :
  conforming engine ->
  StronglySorted
    (fun a b => by_total_desc (stats a) (stats b) = true /\ rank a < rank b)
    (query engine cond sub rows).
Proof.
  intros Hc. rewrite query_unfold. unfold limit.
  now apply StronglySorted_firstn, StronglySorted_filter,
            ranked_tickers_sorted.
Qed.

Lemma query_rows_shown (engine : Engine) (cond : Schema.Mention -> bool)
      (sub : string) (rows : list Schema.Mention) (r : RankedTicker) :
  In r (query engine cond sub rows) -> shown r = true.
Proof.
  rewrite query_unfold. unfold limit. intros Hin.
  apply firstn_In in Hin. now apply filter_In in Hin.
Qed.

(** While no more than ten tickers are counted, every counted ticker that
    passes the [WHERE] clause is handed back, whatever the engine. *)
Lemma query_shows_small_tables (engine : Engine)
      (cond : Schema.Mention -> bool) (sub : string)
      (rows : list Schema.Mention) (s : TickerStats) :
  conforming engine ->
  List.length (ticker_stats cond sub rows) <= 10 ->
  In s (ticker_stats cond sub rows) ->
  passes (ticker s) = true ->
  In (ticker s) (map (fun r => ticker (stats r))
                     (query engine cond sub rows)).
Proof.
  intros Hc Hlen Hin Hpass. rewrite query_unfold. unfold limit.
  destruct (Hc (ticker_stats cond sub rows)) as [Hperm _].
  assert (Hs : In s (engine (ticker_stats cond sub rows))).
  { eapply Permutation_in; eassumption. }
  destruct (row_numbers_In _ _ Hs) as [n Hn].
  rewrite firstn_all2.
  - apply in_map_iff. exists (s, n). split; [reflexivity |].
    apply filter_In. split; [exact Hn | exact Hpass].
  - eapply Nat.le_trans; [apply filter_length_all |].
    unfold ranked_tickers.
    pose proof (row_numbers_length (engine (ticker_stats cond sub rows)))
      as Hnum.
    pose proof (Permutation_length Hperm) as Hsame.
    unfold RankedTicker in *. lia.
Qed.

Lemma source_check_xor (m : Schema.Mention) :
  Schema.source_check m = true ->
  xorb (MatView.is_post m) (MatView.is_comment m) = true.
Proof.
  unfold Schema.source_check, MatView.is_post, MatView.is_comment.
  destruct (String.eqb_spec (Schema.source m) "post") as [Hp|Hp];
    destruct (String.eqb_spec (Schema.source m) "comment") as [Hc|Hc];
    simpl; try reflexivity; try discriminate.
  rewrite Hp in Hc. discriminate.
Qed.

Lemma source_checked_filter (p : Schema.Mention -> bool)
      (rows : list Schema.Mention) :
  Claims.source_checked rows ->
  Forall (fun m => xorb (MatView.is_post m) (MatView.is_comment m) = true)
         (filter p rows).
Proof.
  unfold Claims.source_checked. rewrite !Forall_forall.
  intros H m Hm. apply filter_In in Hm as [Hm _].
  now apply source_check_xor, H.
Qed.

(** C4 (as the query has it). With any engine that keeps to
    [ORDER BY total_mentions DESC], the rows handed back by the ranking
    query are listed by falling total mention count: every row has a total
    at least as large as the total of each row after it.  The statement
    has no second sort key and nothing is said on the order of equal
    totals. *)
Theorem query_total_descending (engine : Engine)
        (cond : Schema.Mention -> bool) (sub : string)
        (rows : list Schema.Mention) :
  conforming engine ->
  StronglySorted Claims.total_descending (query engine cond sub rows).
Proof.
  intros Hc.
  eapply StronglySorted_weaken; [| now apply query_sorted].
  intros a b [Hle _]. unfold Claims.total_descending.
  unfold by_total_desc in Hle. now apply Nat.leb_le in Hle.
Qed.

Lemma query_total_descending_witness :
  conforming stable_engine
  /\ map (fun r => (ticker (stats r), total_mentions (stats r)))
         (query stable_engine
                (SubredditsRoute.timeCondition "daily" SubredditsRoute.day_ms)
                "stocks" (Schema.mentions Samples.ranked_db))
     = [("AAPL", 3); ("TSLA", 1)]
  /\ StronglySorted Claims.total_descending
       (query stable_engine
              (SubredditsRoute.timeCondition "daily" SubredditsRoute.day_ms)
              "stocks" (Schema.mentions Samples.ranked_db)).
Proof.
  split; [exact stable_engine_conforming |].
  split; [vm_compute; reflexivity |].
  exact (query_total_descending stable_engine
           (SubredditsRoute.timeCondition "daily" SubredditsRoute.day_ms)
           "stocks" (Schema.mentions Samples.ranked_db)
           stable_engine_conforming).
Defined.

(** C4 (as stated). The clause [ORDER BY total_mentions DESC] does not
    settle the order of equal totals.  On the table with one mention of
    TSLA and one of AAPL, two engines that both keep to the clause answer
    TSLA, AAPL and AAPL, TSLA; so it is not the case that every such
    engine hands the rows back in the order "falling total, then rising
    symbol". *)
Lemma query_ties_not_alphabetical :
  conforming stable_engine
  /\ conforming reversing_engine
  /\ map (fun r => ticker (stats r))
         (query stable_engine
                (SubredditsRoute.timeCondition "daily" SubredditsRoute.day_ms)
                "stocks" (Schema.mentions Samples.tied_db))
     = ["TSLA"; "AAPL"]
  /\ map (fun r => ticker (stats r))
         (query reversing_engine
                (SubredditsRoute.timeCondition "daily" SubredditsRoute.day_ms)
                "stocks" (Schema.mentions Samples.tied_db))
     = ["AAPL"; "TSLA"]
  /\ ~ Claims.ties_in_symbol_order.
Proof.
  split; [exact stable_engine_conforming |].
  split; [exact reversing_engine_conforming |].
  split; [vm_compute; reflexivity |].
  split; [vm_compute; reflexivity |].
  intros Hclaim.
  specialize (Hclaim stable_engine stable_engine_conforming
                (SubredditsRoute.timeCondition "daily"
                                               SubredditsRoute.day_ms)
                "stocks" (Schema.mentions Samples.tied_db)).
  vm_compute in Hclaim.
  inversion Hclaim as [|a l _ Hall]; subst.
  inversion Hall as [|b l' Hab _]; subst.
  destruct Hab as [Hlt | [_ Hcmp]].
  - vm_compute in Hlt. lia.
  - vm_compute in Hcmp. discriminate.
Qed.

(** C5 (as the query has it). Whatever the engine, no row handed back by
    the ranking query carries a ticker of the statement's own [NOT IN]
    list, and none carries a ticker of fewer than two characters.  The
    words IT, BE, FOR, ARE, ON and AT are not on that list and have two
    characters or more: they pass the [WHERE] clause. *)
Theorem query_hides_not_in_list (engine : Engine)
        (cond : Schema.Mention -> bool) (sub : string)
        (rows : list Schema.Mention) :
  Forall (fun r => ~ In (ticker (stats r)) not_in_list
                   /\ 1 < char_length (ticker (stats r)))
         (query engine cond sub rows)
  /\ Forall (fun word => passes word = true)
            ["IT"; "BE"; "FOR"; "ARE"; "ON"; "AT"].
Proof.
  split.
  - apply Forall_forall. intros r Hr.
    apply query_rows_shown in Hr. unfold shown, passes in Hr.
    apply andb_true_iff in Hr as [Hnot Hlen].
    apply negb_true_iff in Hnot. apply Nat.ltb_lt in Hlen.
    split; [| exact Hlen].
    intros Hin. apply (mem_In String.eqb String.eqb_eq) in Hin.
    congruence.
  - repeat constructor.
Qed.

(** C5 (as stated). IT is on the common-word blocklist, a mention of IT
    is in the table, and the ranking query hands IT back, whatever engine
    carries it out. *)
Lemma query_surfaces_blocklisted_symbol :
  In "IT" Claims.common_word_blocklist
  /\ (forall engine, conforming engine ->
        In "IT"
           (map (fun r => ticker (stats r))
                (query engine
                       (SubredditsRoute.timeCondition "daily"
                                                      SubredditsRoute.day_ms)
                       "stocks" (Schema.mentions Samples.anomaly_db)))).
Proof.
  split; [vm_compute; tauto |].
  intros engine Hc.
  apply (query_shows_small_tables engine _ _ _ (mkStats "IT" 1 0 1) Hc).
  - vm_compute. lia.
  - vm_compute. tauto.
  - vm_compute. reflexivity.
Qed.

End RankingFacts.

(* ================================================================== *)
(** * The route handler *)
(* ================================================================== *)

Module RouteFacts.
Import SubredditsRoute.

(** The rows of a response, up to [change], are the rows of the query
    numbered from [index + 1]; the draws play no part. *)
Lemma map_indexed_core (l : list RankingQuery.RankedTicker) :
  forall (index : nat) (g : Rng),
    map core (fst (map_indexed to_ticker_data index l g))
    = map (fun e => (snd e,
                     RankingQuery.ticker (RankingQuery.stats (fst e)),
                     RankingQuery.posts (RankingQuery.stats (fst e)),
                     RankingQuery.comments (RankingQuery.stats (fst e))))
          (combine l (seq (index + 1) (List.length l))).
Proof.
  induction l as [|row l IH]; intros index g; [reflexivity |].
  cbn [map_indexed]. unfold bind at 1. unfold to_ticker_data at 1.
  unfold bind at 1. unfold Math_random, ret at 1.
  unfold bind at 1.
  destruct (map_indexed to_ticker_data (S index) l (fun n => g (S n)))
    as [bs g'] eqn:E.
  specialize (IH (S index) (fun n => g (S n))). rewrite E in IH.
  simpl in IH. simpl. rewrite IH. reflexivity.
Qed.

Lemma map_indexed_length (l : list RankingQuery.RankedTicker)
      (index : nat) (g : Rng) :
  List.length (fst (map_indexed to_ticker_data index l g)) = List.length l.
Proof.
  rewrite <- (length_map core), map_indexed_core, length_map, length_combine.
  rewrite length_seq. apply Nat.min_id.
Qed.

Lemma map_indexed_ranks (l : list RankingQuery.RankedTicker)
      (index : nat) (g : Rng) :
  map rank (fst (map_indexed to_ticker_data index l g))
  = seq (index + 1) (List.length l).
Proof.
  assert (H : forall ds, map rank ds
                         = map (fun c => fst (fst (fst c))) (map core ds)).
  { intros ds. rewrite map_map. reflexivity. }
  rewrite H, map_indexed_core, map_map. simpl.
  generalize (index + 1) as start. clear.
  induction l as [|row l IH]; intros start; simpl; [reflexivity |].
  now rewrite IH.
Qed.

(** Every entry of [subredditData] is the mapped result of the query for
    its subreddit. *)
Lemma subredditData_entries (pool : Pool) (cond : Schema.Mention -> bool)
      (subs : list string) :
  forall (g : Rng) (d : list (string * list TickerData)),
    fst (subredditData pool cond subs g) = Some d ->
    Forall (fun e => exists q g0,
                pool_query pool cond (fst e) = Some q
                /\ snd e = fst (map_indexed to_ticker_data 0 q g0)) d.
Proof.
  induction subs as [|s subs IH]; intros g d; simpl.
  - intros H. inversion H. constructor.
  - destruct (pool_query pool cond s) as [q|] eqn:Hq; [| discriminate].
    unfold bind at 1.
    destruct (map_indexed to_ticker_data 0 q g) as [data g1] eqn:E.
    unfold bind at 1.
    destruct (subredditData pool cond subs g1) as [others g2] eqn:F.
    simpl. destruct others as [others|]; simpl; [| discriminate].
    intros H. inversion H; subst d. constructor.
    + exists q, g. simpl. rewrite E. auto.
    + apply (IH g1). now rewrite F.
Qed.

Lemma subredditData_core (pool : Pool) (cond : Schema.Mention -> bool)
      (subs : list string) :
  forall g1 g2 : Rng,
    option_map (map core_of_subreddit) (fst (subredditData pool cond subs g1))
    = option_map (map core_of_subreddit)
                 (fst (subredditData pool cond subs g2)).
Proof.
  induction subs as [|s subs IH]; intros g1 g2; simpl; [reflexivity |].
  destruct (pool_query pool cond s) as [q|]; [| reflexivity].
  unfold bind at 1 3.
  destruct (map_indexed to_ticker_data 0 q g1) as [d1 h1] eqn:E1.
  destruct (map_indexed to_ticker_data 0 q g2) as [d2 h2] eqn:E2.
  unfold bind at 1 2.
  specialize (IH h1 h2).
  destruct (subredditData pool cond subs h1) as [o1 k1].
  destruct (subredditData pool cond subs h2) as [o2 k2].
  simpl in *.
  assert (Hd : map core d1 = map core d2).
  { pose proof (map_indexed_core q 0 g1) as H1.
    pose proof (map_indexed_core q 0 g2) as H2.
    rewrite E1 in H1. rewrite E2 in H2. simpl in H1, H2. congruence. }
  destruct o1 as [o1|], o2 as [o2|]; simpl in *; try discriminate;
    [| reflexivity].
  inversion IH as [IH']. unfold core_of_subreddit at 1 3. simpl.
  now rewrite Hd, IH'.
Qed.

Lemma GET_result (timeRangeParam : option string) (now : Z) (pool : Pool)
      (g : Rng) :
  run (GET timeRangeParam now pool) g
  = respond (fst (subredditData pool
                    (timeCondition (or_default timeRangeParam "daily") now)
                    subreddits g))
            (or_default timeRangeParam "daily").
Proof.
  unfold GET, run, bind, ret.
  destruct (subredditData _ _ _ g) as [data h]. reflexivity.
Qed.

(** C9. In every successful response each subreddit has at most ten rows,
    and their [rank] fields are 1, 2, ..., n in list order. *)
Theorem response_ranks_consecutive (timeRangeParam : option string)
        (now : Z) (pool : Pool) (g : Rng)
        (subs : list (string * list TickerData)) (tr : string) :
  run (GET timeRangeParam now pool) g = json subs tr ->
  Forall (fun e => List.length (snd e) <= 10
                   /\ map rank (snd e) = seq 1 (List.length (snd e))) subs.
Proof.
  rewrite GET_result.
  destruct (fst (subredditData pool _ subreddits g)) as [d|] eqn:Hd;
    [| discriminate].
  simpl. intros H. inversion H; subst.
  eapply Forall_impl; [| apply (subredditData_entries _ _ _ _ _ Hd)].
  intros [s rows] [q [g0 [Hq Hrows]]]. simpl in *. subst rows.
  rewrite map_indexed_length, map_indexed_ranks. split; [| reflexivity].
  destruct pool as [engine db|]; [| discriminate].
  simpl in Hq. inversion Hq. unfold RankingQuery.query.
  apply SqlFacts.limit_length.
Qed.

Lemma response_ranks_consecutive_witness :
  exists subs tr,
    run (GET None day_ms
             (connected RankingQuery.stable_engine Samples.crowded_db))
        (fun _ => 0%Q)
    = json subs tr
    /\ In "stocks" (map fst subs)
    /\ Forall (fun e => List.length (snd e) <= 10
                        /\ map rank (snd e) = seq 1 (List.length (snd e)))
              subs.
Proof.
  eexists. eexists. split; [vm_compute; reflexivity |].
  split; [simpl; tauto |].
  eapply (response_ranks_consecutive None day_ms
            (connected RankingQuery.stable_engine Samples.crowded_db)
            (fun _ => 0%Q)).
  vm_compute. reflexivity.
Defined.

(** C10. For a fixed request, clock and database two runs of the handler
    agree on [rank], [ticker], [posts] and [comments] of every row,
    whatever [Math.random] draws; the full responses can differ, since
    [change] is computed from the draw alone. *)
Theorem GET_deterministic_up_to_change :
  (forall (timeRangeParam : option string) (now : Z) (pool : Pool)
          (g1 g2 : Rng),
      without_change (run (GET timeRangeParam now pool) g1)
      = without_change (run (GET timeRangeParam now pool) g2))
  /\ (exists (timeRangeParam : option string) (now : Z) (pool : Pool)
             (g1 g2 : Rng),
         run (GET timeRangeParam now pool) g1
         <> run (GET timeRangeParam now pool) g2).
Proof.
  split.
  - intros p now pool g1 g2.
    rewrite !GET_result.
    pose proof (subredditData_core pool
                  (timeCondition (or_default p "daily") now)
                  subreddits g1 g2) as Hc.
    destruct (fst (subredditData pool _ subreddits g1)) as [d1|];
      destruct (fst (subredditData pool _ subreddits g2)) as [d2|];
      simpl in *; try discriminate; [| reflexivity].
    inversion Hc. reflexivity.
  - exists None, day_ms, (connected RankingQuery.stable_engine Samples.tied_db),
      (Samples.first_draws 0 (1 # 2)), (Samples.first_draws (1 # 2) 0).
    vm_compute. intros H. discriminate H.
Qed.

End RouteFacts.

(* ================================================================== *)
(** * The mention store and the materialized view *)
(* ================================================================== *)

Module StoreFacts.
Import Schema MentionStore.

Lemma comment_keys_app (l1 l2 : list Mention) :
  comment_keys (l1 ++ l2) = comment_keys l1 ++ comment_keys l2.
Proof. unfold comment_keys. apply flat_map_app. Qed.

(** A row that collides with nothing stored has a key not stored yet. *)
Lemma no_conflict_fresh_key (m : Mention) (rows : list Mention) (c : string) :
  existsb (unique_conflict m) rows = false ->
  comment_id m = Some c ->
  ~ In (ticker m, post_id m, c) (comment_keys rows).
Proof.
  intros Hno Hc Hin. unfold comment_keys in Hin.
  apply in_flat_map in Hin as [r [Hr Hkey]].
  assert (Hconf : unique_conflict m r = true).
  { destruct (comment_id r) as [c'|] eqn:Hcr; simpl in Hkey; [| tauto].
    destruct Hkey as [Hkey | []]. inversion Hkey as [[Ht Hp Hcc]].
    unfold unique_conflict. rewrite Hc, Hcr, Ht, Hp, Hcc. simpl.
    now rewrite !String.eqb_refl. }
  assert (Hex : existsb (unique_conflict m) rows = true).
  { apply existsb_exists. now exists r. }
  congruence.
Qed.

Lemma insert_mention_mentions (m : Mention) (db : Database) :
  mentions (state_of (insert_mention m db)) = mentions db
  \/ (existsb (unique_conflict m) (mentions db) = false
      /\ mentions (state_of (insert_mention m db))
         = mentions db ++ [set_id (mentions_id_seq db + 1) m]).
Proof.
  unfold insert_mention.
  destruct (varchar_ok m); simpl; [| now left].
  destruct (decimal_ok m); simpl; [| now left].
  destruct (source_check m); simpl; [| now left].
  destruct (existsb (unique_conflict m) (mentions db)) eqn:E; simpl;
    [now left | right; auto].
Qed.

(** The unique index does its work on comment-level rows: whatever is
    inserted, no two stored rows share ticker, post id and a comment id. *)
Lemma insert_mention_comment_keys (m : Mention) (db : Database) :
  NoDup (comment_keys (mentions db)) ->
  NoDup (comment_keys (mentions (state_of (insert_mention m db)))).
Proof.
  intros Hnd.
  destruct (insert_mention_mentions m db) as [-> | [Hno ->]]; [exact Hnd |].
  rewrite comment_keys_app. simpl.
  destruct (comment_id m) as [c|] eqn:Hc; simpl.
  - apply (Permutation_NoDup
             (Permutation_cons_append (comment_keys (mentions db)) _)).
    constructor; [| exact Hnd].
    now apply no_conflict_fresh_key.
  - now rewrite app_nil_r.
Qed.

Lemma record_state (tick post : string) (comment : option string)
      (community : string) (who : option string) (occurred_at : Z)
      (snippet : option string) (kind : string) (db : Database) :
  state_of (record tick post comment community who occurred_at snippet kind
                   db)
  = state_of (insert_mention
                (mkMention 0 tick community post comment kind occurred_at
                           who snippet None None None) db).
Proof.
  unfold record.
  destruct (insert_mention _ db) as [d | [] d]; reflexivity.
Qed.

Lemma record_all_comment_keys (calls : list Mention) (db : Database) :
  NoDup (comment_keys (mentions db)) ->
  NoDup (comment_keys (mentions (record_all calls db))).
Proof.
  revert db. induction calls as [|m calls IH]; intros db Hnd; simpl;
    [exact Hnd |].
  apply IH. rewrite record_state. now apply insert_mention_comment_keys.
Qed.

(** The [CHECK] on [source] holds of every stored row. *)
Lemma insert_mention_source_checked (m : Mention) (db : Database) :
  Claims.source_checked (mentions db) ->
  Claims.source_checked (mentions (state_of (insert_mention m db))).
Proof.
  unfold Claims.source_checked, insert_mention. intros H.
  destruct (varchar_ok m); simpl; [| exact H].
  destruct (decimal_ok m); simpl; [| exact H].
  destruct (source_check m) eqn:Hs; simpl; [| exact H].
  destruct (existsb (unique_conflict m) (mentions db)); simpl; [exact H |].
  apply Forall_app. split; [exact H |]. constructor; [| constructor].
  exact Hs.
Qed.

(** C1 (at the failing input). Recording the post-level mention
    (AAPL, "p1", no comment id) twice stores two rows with that triple, and
    the count that follows is 2: the unique index takes the two absent
    comment ids for distinct values, so the table accepts the second
    [INSERT] as it stands and there is no conflict to ignore. *)
Theorem record_twice_post_level_stores_two :
  let once := state_of (record "AAPL" "p1" None "stocks" None 1000 None
                               "post" empty_db) in
  let twice := state_of (record "AAPL" "p1" None "stocks" None 1000 None
                                "post" once) in
  insert_mention (Samples.post_row "AAPL" "p1" 1000) once = Ok twice
  /\ map triple (mentions twice)
     = [("AAPL", "p1", None); ("AAPL", "p1", None)]
  /\ count_since (Some "AAPL") None 0 twice = (2, 0).
Proof.
  vm_compute. repeat split; reflexivity.
Qed.

(** For comparison, the same two calls for a comment-level mention store
    one row. *)
Lemma record_twice_comment_level_stores_one :
  let once := state_of (record "AAPL" "p1" (Some "c1") "stocks" None 1000
                               None "comment" empty_db) in
  let twice := state_of (record "AAPL" "p1" (Some "c1") "stocks" None 1000
                                None "comment" once) in
  map triple (mentions twice) = [("AAPL", "p1", Some "c1")]
  /\ record "AAPL" "p1" (Some "c1") "stocks" None 1000 None "comment" once
     = Ok twice
  /\ count_since (Some "AAPL") None 0 twice = (0, 1).
Proof.
  vm_compute. repeat split; reflexivity.
Qed.

End StoreFacts.

Module ViewFacts.
Import Schema MatView.

(** The refresh script cannot succeed against the schema as created: the
    view has no unique index. *)
Lemma refresh_sql_refused (zone : TimeZone) (now : Z) (db : Database) :
  refresh_sql zone now db = Err object_not_in_prerequisite_state db.
Proof. reflexivity. Qed.

(** A plain refresh stores the defining query evaluated on the table as
    it is, and nothing of the previous snapshot survives. *)
Lemma refresh_plain_recomputes (zone : TimeZone) (now : Z) (db : Database) :
  exists db', refresh_plain zone now db = Ok db'
              /\ mentions db' = mentions db
              /\ mentions_hourly db'
                 = mentions_hourly_query zone now (mentions db).
Proof. eexists. repeat split. Qed.

(** So would the concurrent refresh once the view had a unique index. *)
Lemma refresh_concurrently_with_unique_index (indexes : list IndexDef)
      (zone : TimeZone) (now : Z) (db : Database) :
  existsb index_unique indexes = true ->
  refresh_materialized_view indexes true zone now db
  = Ok (with_snapshot (mentions_hourly_query zone now (mentions db)) db).
Proof.
  intros H. unfold refresh_materialized_view. now rewrite H.
Qed.

Lemma refresh_plain_forgets_snapshot (zone : TimeZone) (now : Z)
      (db : Database) (snap : list HourlyRow) :
  mentions_hourly (state_of (refresh_plain zone now (with_snapshot snap db)))
  = mentions_hourly (state_of (refresh_plain zone now db)).
Proof. reflexivity. Qed.

(** C6 (at the failing input). The view is created on the empty table and
    two mentions are stored afterwards; running the statement of
    [refresh.sql] then raises an error, the snapshot is still empty, and
    the defining query evaluated at that moment has two rows; this is so
    in a session of any time zone. *)
Theorem refresh_sql_leaves_snapshot_stale :
  forall zone : TimeZone,
  let db := Samples.tied_db in
  let now := 3600000000%Z in
  refresh_sql zone now db = Err object_not_in_prerequisite_state db
  /\ mentions_hourly (state_of (refresh_sql zone now db)) = []
  /\ List.length (mentions_hourly_query zone now (mentions db)) = 2.
Proof.
  intros zone. vm_compute. repeat split; reflexivity.
Qed.

End ViewFacts.

(* ================================================================== *)
(** * The mention extractor *)
(* ================================================================== *)

Module ExtractorFacts.
Import Sql SqlFacts Extractor.

Lemma list_ascii_of_string_app (a b : string) :
  list_ascii_of_string (a ++ b)%string
  = list_ascii_of_string a ++ list_ascii_of_string b.
Proof.
  induction a as [|c a IH]; simpl; [reflexivity | now rewrite IH].
Qed.

Lemma upper_is_alnum (c : ascii) : is_upper c = true -> is_alnum c = true.
Proof.
  unfold is_alnum, is_letter. intros ->. reflexivity.
Qed.

Lemma upper_not_lower (c : ascii) : is_upper c = true -> is_lower c = false.
Proof.
  unfold is_upper, is_lower, between.
  rewrite andb_true_iff, andb_false_iff, !Nat.leb_le, Nat.leb_gt. lia.
Qed.

Lemma to_upper_fixes_upper (w : list ascii) :
  forallb is_upper w = true -> map to_upper w = w.
Proof.
  induction w as [|c w IH]; simpl; [reflexivity |].
  rewrite andb_true_iff. intros [Hc Hw].
  unfold to_upper at 1. rewrite (upper_not_lower c Hc). now rewrite IH.
Qed.

(** A word that stops at a boundary is read whole. *)
Lemma take_word_exact (w post : list ascii) :
  forallb is_alnum w = true ->
  match post with
  | [] => True
  | c :: _ => is_alnum c = false
  end ->
  take_word (w ++ post) = w /\ drop_word (w ++ post) = post.
Proof.
  intros Hw Hpost. induction w as [|c w IH]; simpl in *.
  - destruct post as [|c post]; simpl; [auto |]. now rewrite Hpost.
  - apply andb_true_iff in Hw as [Hc Hw]. rewrite Hc.
    destruct (IH Hw) as [-> ->]. auto.
Qed.

(** Tokens of a suffix are tokens of the text, whatever comes first, as
    long as the suffix opens with a character that is no part of a word. *)
Lemma tokens_after_suffix (l1 l2 : list ascii) (sep : ascii) :
  is_alnum sep = false ->
  forall (prev : ascii) (t : Token),
    In t (tokens_after sep l2) ->
    In t (tokens_after prev (l1 ++ sep :: l2)).
Proof.
  intros Hsep. induction l1 as [|c l1 IH]; intros prev t Ht.
  - simpl. now rewrite Hsep.
  - simpl. destruct (is_alnum c && negb (is_alnum prev)).
    + right. now apply IH.
    + now apply IH.
Qed.

(** The token of a cashtag. *)
Lemma cashtag_token (pre w post : list ascii) :
  w <> [] ->
  forallb is_alnum w = true ->
  match post with
  | [] => True
  | c :: _ => is_alnum c = false
  end ->
  In (mkToken true w post) (tokens_after " " (pre ++ "$"%char :: w ++ post)).
Proof.
  intros Hne Hw Hpost.
  apply tokens_after_suffix; [reflexivity |].
  destruct w as [|c w]; [congruence |].
  simpl in Hw. apply andb_true_iff in Hw as [Hc Hw].
  simpl. rewrite Hc. simpl.
  destruct (take_word_exact w post Hw Hpost) as [-> ->]. now left.
Qed.

Lemma forallb_upper_alnum (w : list ascii) :
  forallb is_upper w = true -> forallb is_alnum w = true.
Proof.
  rewrite !forallb_forall. intros H c Hc. now apply upper_is_alnum, H.
Qed.

Lemma extract_In (text : string) (R : ReferenceSet) (s : string) :
  In s (extract text R)
  <-> exists t, In t (tokens text)
                /\ accepted R (strong_signal R (tokens text)) t = true
                /\ symbol t = s.
Proof.
  unfold extract. rewrite (distinct_In String.eqb String.eqb_eq).
  rewrite in_map_iff. split.
  - intros [t [Hs Ht]]. apply filter_In in Ht. exists t. tauto.
  - intros [t [Hin [Hacc Hs]]]. exists t. rewrite filter_In. tauto.
Qed.

(** The result lists no symbol twice. *)
Lemma extract_NoDup (text : string) (R : ReferenceSet) :
  NoDup (extract text R).
Proof.
  unfold extract, distinct.
  apply (distinct_from_NoDup String.eqb String.eqb_eq).
Qed.

(** C2. A text that contains [$TICK], with TICK one to five uppercase
    letters and not continued by a letter or digit, and TICK in the
    reference set, has TICK in its extraction, whatever the blocklist
    says. *)
Theorem cashtag_always_extracted (pre tick post : string)
        (R : ReferenceSet) :
  ticker_shaped (list_ascii_of_string tick) = true ->
  Claims.word_bounded post ->
  In tick (symbols R) ->
  In tick (extract (pre ++ "$" ++ tick ++ post)%string R).
Proof.
  intros Hshape Hpost Hknown.
  set (w := list_ascii_of_string tick) in *.
  assert (Hup : forallb is_upper w = true).
  { unfold ticker_shaped in Hshape.
    apply andb_true_iff in Hshape as [Hshape _].
    now apply andb_true_iff in Hshape as [Hshape _]. }
  assert (Hne : w <> []).
  { unfold ticker_shaped in Hshape.
    apply andb_true_iff in Hshape as [Hshape _].
    apply andb_true_iff in Hshape as [_ Hlen].
    apply Nat.leb_le in Hlen. intros E. rewrite E in Hlen. simpl in Hlen.
    lia. }
  set (t := mkToken true w (list_ascii_of_string post)).
  assert (Hsym : symbol t = tick).
  { unfold symbol, t. simpl. rewrite (to_upper_fixes_upper w Hup).
    apply string_of_list_ascii_of_string. }
  apply extract_In. exists t. split; [| split; [| exact Hsym]].
  - unfold tokens. rewrite !list_ascii_of_string_app. simpl.
    apply cashtag_token; [exact Hne | now apply forallb_upper_alnum |].
    destruct post as [|c post]; simpl in *; auto.
  - unfold accepted.
    assert (Hc : cashtag R t = true).
    { unfold cashtag. rewrite Hsym. simpl. fold w. rewrite Hshape. simpl.
      unfold known. now apply (mem_In String.eqb String.eqb_eq). }
    now rewrite Hc.
Qed.

Lemma cashtag_always_extracted_witness :
  ticker_shaped (list_ascii_of_string "AI") = true
  /\ Claims.word_bounded " is mooning"
  /\ In "AI" (blocklist (mkReferenceSet ["AI"] ["AI"] []))
  /\ extract "$AI is mooning" (mkReferenceSet ["AI"] ["AI"] []) = ["AI"]
  /\ In "AI" (extract "$AI is mooning" (mkReferenceSet ["AI"] ["AI"] [])).
Proof.
  split; [reflexivity |]. split; [reflexivity |].
  split; [simpl; tauto |]. split; [reflexivity |].
  apply (cashtag_always_extracted "" "AI" " is mooning"
           (mkReferenceSet ["AI"] ["AI"] [])).
  - reflexivity.
  - reflexivity.
  - simpl. tauto.
Defined.

(** C3. In a text without a strong ticker signal (no cashtag of a known
    symbol), a symbol of the blocklist is not extracted. *)
Theorem bare_blocklisted_excluded (text : string) (R : ReferenceSet)
        (tick : string) :
  In tick (blocklist R) ->
  strong_signal R (tokens text) = false ->
  ~ In tick (extract text R).
Proof.
  intros Hblock Hweak Hin.
  apply extract_In in Hin as [t [Ht [Hacc Hsym]]].
  rewrite Hweak in Hacc. unfold accepted in Hacc.
  destruct (cashtag R t) eqn:Hc.
  - unfold strong_signal in Hweak.
    assert (existsb (cashtag R) (tokens text) = true).
    { apply existsb_exists. now exists t. }
    congruence.
  - assert (Hamb : ambiguous R (symbol t) = true).
    { unfold ambiguous. rewrite Hsym.
      apply orb_true_iff. left.
      now apply (mem_In String.eqb String.eqb_eq). }
    destruct (bare R t) eqn:Hb.
    + unfold bare in Hb. rewrite Hamb in Hb. simpl in Hb.
      rewrite andb_false_r in Hb. discriminate.
    + unfold promoted in Hacc. rewrite andb_false_r in Hacc. discriminate.
Qed.

Lemma bare_blocklisted_excluded_witness :
  In "AI" (blocklist (mkReferenceSet ["AI"] ["AI"] ["AI"]))
  /\ strong_signal (mkReferenceSet ["AI"] ["AI"] ["AI"])
                   (tokens "I think AI will replace us") = false
  /\ extract "I think AI will replace us"
             (mkReferenceSet ["AI"] ["AI"] ["AI"]) = []
  /\ ~ In "AI" (extract "I think AI will replace us"
                        (mkReferenceSet ["AI"] ["AI"] ["AI"])).
Proof.
  split; [simpl; tauto |]. split; [reflexivity |]. split; [reflexivity |].
  apply (bare_blocklisted_excluded "I think AI will replace us"
           (mkReferenceSet ["AI"] ["AI"] ["AI"]) "AI").
  - simpl. tauto.
  - reflexivity.
Defined.

Lemma mem_same_set (a b : list string) (s : string) :
  Claims.same_set a b -> mem String.eqb s a = mem String.eqb s b.
Proof.
  intros Hab.
  destruct (mem String.eqb s a) eqn:Ha, (mem String.eqb s b) eqn:Hb;
    try reflexivity.
  - apply (mem_In String.eqb String.eqb_eq) in Ha. apply Hab in Ha.
    apply (mem_In String.eqb String.eqb_eq) in Ha. congruence.
  - apply (mem_In String.eqb String.eqb_eq) in Hb. apply Hab in Hb.
    apply (mem_In String.eqb String.eqb_eq) in Hb. congruence.
Qed.

Lemma accepted_same_reference (R R' : ReferenceSet) (strong : bool)
      (t : Token) :
  Claims.same_reference R R' -> accepted R strong t = accepted R' strong t.
Proof.
  intros [Hs [Hb Ho]].
  unfold accepted, cashtag, bare, promoted, known, ambiguous.
  rewrite (mem_same_set _ _ (symbol t) Hs).
  rewrite (mem_same_set _ _ (symbol t) Hb).
  rewrite (mem_same_set _ _ (symbol t) Ho).
  reflexivity.
Qed.

Lemma strong_signal_same_reference (R R' : ReferenceSet)
      (toks : list Token) :
  Claims.same_reference R R' -> strong_signal R toks = strong_signal R' toks.
Proof.
  intros [Hs _]. unfold strong_signal.
  induction toks as [|t toks IH]; simpl; [reflexivity |].
  rewrite IH. f_equal.
  unfold cashtag, known. now rewrite (mem_same_set _ _ (symbol t) Hs).
Qed.

(** The extraction reads its reference set through membership only:
    reference sets with the same members give the same list of symbols,
    element for element. *)
Lemma extract_reads_members (text : string) (R R' : ReferenceSet) :
  Claims.same_reference R R' ->
  extract text R = extract text R'.
Proof.
  intros Href. unfold extract.
  rewrite (strong_signal_same_reference R R' _ Href).
  f_equal. f_equal. apply filter_ext.
  intros t. now apply accepted_same_reference.
Qed.

End ExtractorFacts.

(* ================================================================== *)
(** * More on the ranking query and the route handler *)
(* ================================================================== *)

Module RouteExtras.
Import Sql SqlFacts.

(** Keeping some rows keeps their keys distinct. *)
Lemma NoDup_map_filter {Row Key : Type} (key : Row -> Key)
      (keep : Row -> bool) (rows : list Row)
      (Hkeys : NoDup (map key rows)) :
  NoDup (map key (filter keep rows)).
Proof.
  induction rows as [|r rows IH]; simpl in *; [constructor |].
  inversion Hkeys as [|? ? Hfresh Hrest]; subst.
  destruct (keep r); simpl; [| now apply IH].
  constructor; [| now apply IH].
  rewrite in_map_iff. intros [x [Hx Hin]].
  apply filter_In in Hin as [Hin _].
  apply Hfresh. rewrite <- Hx. now apply in_map.
Qed.

(** So does keeping the first rows. *)
Lemma NoDup_map_firstn {Row Key : Type} (key : Row -> Key) (n : nat)
      (rows : list Row) (Hkeys : NoDup (map key rows)) :
  NoDup (map key (firstn n rows)).
Proof.
  revert rows Hkeys. induction n as [|n IH]; intros [|r rows] Hkeys; simpl;
    try constructor; inversion Hkeys as [|? ? Hfresh Hrest]; subst.
  - rewrite in_map_iff. intros [x [Hx Hin]].
    apply firstn_In in Hin. apply Hfresh. rewrite <- Hx. now apply in_map.
  - now apply IH.
Qed.

Lemma StronglySorted_app_cross {A : Type} (R : A -> A -> Prop)
      (front back : list A) :
  StronglySorted R (front ++ back) ->
  forall a b, In a front -> In b back -> R a b.
Proof.
  induction front as [|x front IH]; simpl; intros Hs a b Ha Hb; [tauto |].
  inversion Hs as [|? ? Hs' Hall]; subst.
  destruct Ha as [->|Ha].
  - rewrite Forall_forall in Hall. apply Hall. apply in_or_app. now right.
  - now apply IH.
Qed.

Lemma filter_length_le {A : Type} (p q : A -> bool) (l : list A) :
  (forall a, p a = true -> q a = true) ->
  List.length (filter p l) <= List.length (filter q l).
Proof.
  intros Himp. induction l as [|a l IH]; simpl; [lia |].
  destruct (p a) eqn:Hp.
  - rewrite (Himp a Hp). simpl. lia.
  - destruct (q a); simpl; lia.
Qed.

Section Query.
Import RankingQuery.

Variable engine : Engine.
Hypothesis engine_conforming : conforming engine.
Variable cond : Schema.Mention -> bool.
Variable sub : string.
Variable rows : list Schema.Mention.

Lemma ticker_stats_tickers :
  map ticker (ticker_stats cond sub rows)
  = distinct String.eqb
             (map Schema.ticker (filter (in_scope cond sub) rows)).
Proof.
  unfold ticker_stats, group_by. rewrite !map_map. simpl. apply map_id.
Qed.

(** The rows of [ticker_stats]: one for each ticker with a mention in
    scope, holding the counts of the mentions of that ticker. *)
Lemma ticker_stats_In (s : TickerStats) :
  In s (ticker_stats cond sub rows)
  <-> (exists m, In m rows /\ in_scope cond sub m = true
                 /\ Schema.ticker m = ticker s)
      /\ s = mkStats (ticker s)
               (count_case MatView.is_post
                  (Claims.counted_for cond sub (ticker s) rows))
               (count_case MatView.is_comment
                  (Claims.counted_for cond sub (ticker s) rows))
               (count_star (Claims.counted_for cond sub (ticker s) rows)).
Proof.
  unfold ticker_stats, group_by. rewrite in_map_iff. split.
  - intros [[k g] [Hs Hin]]. apply in_map_iff in Hin as [k' [Hk Hin]].
    inversion Hk; subst k' g. clear Hk.
    rewrite (distinct_In String.eqb String.eqb_eq) in Hin.
    apply in_map_iff in Hin as [m [Hm Hin]].
    apply filter_In in Hin as [Hin Hsc].
    rewrite filter_filter in Hs. subst s. simpl. split.
    + exists m. auto.
    + reflexivity.
  - intros [[m [Hin [Hsc Ht]]] Hs].
    exists (ticker s, filter (fun r => String.eqb (Schema.ticker r) (ticker s))
                             (filter (in_scope cond sub) rows)).
    split.
    + rewrite filter_filter. symmetry. exact Hs.
    + apply in_map_iff. exists (ticker s). split; [reflexivity |].
      apply (distinct_In String.eqb String.eqb_eq).
      apply in_map_iff. exists m. split; [exact Ht |].
      apply filter_In. auto.
Qed.

(** An engine that keeps to the clause hands back the statistics it was
    given and no others. *)
Lemma ranked_tickers_stats (st : list TickerStats) (r : RankedTicker) :
  In r (ranked_tickers engine st) -> In (stats r) st.
Proof.
  unfold ranked_tickers, row_numbers. destruct r as [s n]. intros Hin.
  apply in_combine_l in Hin.
  destruct (engine_conforming st) as [Hperm _].
  eapply Permutation_in; [apply Permutation_sym; exact Hperm | exact Hin].
Qed.

Lemma query_row_stats (r : RankedTicker) :
  In r (query engine cond sub rows)
  -> In (stats r) (ticker_stats cond sub rows).
Proof.
  rewrite RankingFacts.query_unfold. unfold limit. intros Hin.
  apply firstn_In in Hin. apply filter_In in Hin as [Hin _].
  now apply ranked_tickers_stats.
Qed.

Lemma query_tickers_distinct :
  NoDup (map (fun r => ticker (stats r)) (query engine cond sub rows)).
Proof.
  rewrite RankingFacts.query_unfold. unfold limit.
  apply NoDup_map_firstn, NoDup_map_filter.
  unfold ranked_tickers.
  rewrite <- (map_map stats ticker).
  change (map stats (row_numbers (engine (ticker_stats cond sub rows))))
    with (map (@fst TickerStats nat)
              (row_numbers (engine (ticker_stats cond sub rows)))).
  rewrite row_numbers_rows.
  destruct (engine_conforming (ticker_stats cond sub rows)) as [Hperm _].
  eapply Permutation_NoDup.
  - apply Permutation_map. exact Hperm.
  - rewrite ticker_stats_tickers. unfold distinct.
    apply (distinct_from_NoDup String.eqb String.eqb_eq).
Qed.

(** X6. What [LIMIT 10] leaves out is never ahead of what it keeps: with
    any engine that keeps to the [ORDER BY] clause, a ranked row that
    passes the [WHERE] clause and is missing from the result has a total
    no larger than the total of any row of the result. *)
Theorem limit_keeps_the_largest (kept dropped : RankedTicker) :
  In kept (query engine cond sub rows) ->
  In dropped
     (filter shown (ranked_tickers engine (ticker_stats cond sub rows))) ->
  ~ In dropped (query engine cond sub rows) ->
  total_mentions (stats dropped) <= total_mentions (stats kept).
Proof.
  rewrite RankingFacts.query_unfold. unfold limit.
  set (L := filter shown
                   (ranked_tickers engine (ticker_stats cond sub rows))).
  intros Hkept Hdropped Hout.
  assert (Hs : StronglySorted
                 (fun a b => by_total_desc (stats a) (stats b) = true
                             /\ rank a < rank b)
                 (firstn 10 L ++ skipn 10 L)).
  { rewrite firstn_skipn. apply StronglySorted_filter.
    now apply RankingFacts.ranked_tickers_sorted. }
  rewrite <- (firstn_skipn 10 L) in Hdropped.
  apply in_app_or in Hdropped as [Hd | Hd]; [contradiction |].
  destruct (StronglySorted_app_cross _ _ _ Hs kept dropped Hkept Hd)
    as [Hle _].
  unfold by_total_desc in Hle. now apply Nat.leb_le in Hle.
Qed.

End Query.

Lemma limit_keeps_the_largest_witness :
  RankingQuery.conforming RankingQuery.stable_engine
  /\ exists kept dropped,
      In kept (RankingQuery.query RankingQuery.stable_engine
                 (fun _ => true) "stocks"
                 (Schema.mentions Samples.crowded_db))
      /\ In dropped
            (filter RankingQuery.shown
               (RankingQuery.ranked_tickers RankingQuery.stable_engine
                  (RankingQuery.ticker_stats (fun _ => true) "stocks"
                     (Schema.mentions Samples.crowded_db))))
      /\ ~ In dropped (RankingQuery.query RankingQuery.stable_engine
                         (fun _ => true) "stocks"
                         (Schema.mentions Samples.crowded_db))
      /\ RankingQuery.total_mentions (RankingQuery.stats dropped)
         <= RankingQuery.total_mentions (RankingQuery.stats kept).
Proof.
  split; [exact RankingFacts.stable_engine_conforming |].
  exists (RankingQuery.mkStats "AAPL" 1 0 1, 1),
         (RankingQuery.mkStats "QQQ" 1 0 1, 12).
  assert (H1 : In (RankingQuery.mkStats "AAPL" 1 0 1, 1)
                  (RankingQuery.query RankingQuery.stable_engine
                     (fun _ => true) "stocks"
                     (Schema.mentions Samples.crowded_db))).
  { vm_compute. tauto. }
  assert (H2 : In (RankingQuery.mkStats "QQQ" 1 0 1, 12)
                  (filter RankingQuery.shown
                     (RankingQuery.ranked_tickers RankingQuery.stable_engine
                        (RankingQuery.ticker_stats (fun _ => true) "stocks"
                           (Schema.mentions Samples.crowded_db))))).
  { vm_compute. tauto. }
  assert (H3 : ~ In (RankingQuery.mkStats "QQQ" 1 0 1, 12)
                    (RankingQuery.query RankingQuery.stable_engine
                       (fun _ => true) "stocks"
                       (Schema.mentions Samples.crowded_db))).
  { vm_compute. intros H.
    repeat (destruct H as [H | H]; [discriminate H |]). exact H. }
  split; [exact H1 |]. split; [exact H2 |]. split; [exact H3 |].
  exact (limit_keeps_the_largest RankingQuery.stable_engine
           RankingFacts.stable_engine_conforming (fun _ => true) "stocks"
           (Schema.mentions Samples.crowded_db) _ _ H1 H2 H3).
Defined.

End RouteExtras.

Module ResponseExtras.
Import Sql SqlFacts SubredditsRoute.

Lemma subredditData_connected (engine : RankingQuery.Engine)
      (db : Schema.Database) (cond : Schema.Mention -> bool)
      (subs : list string) :
  forall g : Rng,
  exists d, fst (subredditData (connected engine db) cond subs g) = Some d
            /\ map fst d = subs.
Proof.
  induction subs as [|s subs IH]; intros g; simpl.
  - exists []. auto.
  - unfold bind at 1.
    destruct (map_indexed to_ticker_data 0 _ g) as [rows g1].
    unfold bind at 1. destruct (IH g1) as [d [Hd Hkeys]].
    destruct (subredditData (connected engine db) cond subs g1)
      as [others g2].
    simpl in *. subst others. simpl. exists ((s, rows) :: d). simpl.
    now rewrite Hkeys.
Qed.

(** X1. With the database in reach every request is answered with the
    JSON body: the five subreddits of the handler's list, in that order,
    and the time range that was asked for ("daily" when the parameter is
    missing or empty).  When the query throws, the answer is the error
    body with status 500. *)
Theorem GET_answers (timeRangeParam : option string) (now : Z)
        (pool : Pool) (g : Rng) :
  match pool with
  | connected _ _ =>
      exists subs,
        run (GET timeRangeParam now pool) g
        = json subs (or_default timeRangeParam "daily")
        /\ map fst subs = subreddits
  | unreachable =>
      run (GET timeRangeParam now pool) g
      = json_error "Failed to fetch subreddit data" 500
  end.
Proof.
  rewrite RouteFacts.GET_result.
  destruct pool as [engine db|]; [| reflexivity].
  destruct (subredditData_connected engine db
              (timeCondition (or_default timeRangeParam "daily") now)
              subreddits g) as [d [Hd Hkeys]].
  rewrite Hd. exists d. auto.
Qed.

Lemma window_ms_default (tr : string) :
  tr <> "weekly" -> tr <> "monthly" -> window_ms tr = day_ms.
Proof.
  intros Hw Hm. unfold window_ms.
  destruct (String.eqb tr "daily"); [reflexivity |].
  destruct (String.eqb_spec tr "weekly"); [contradiction |].
  destruct (String.eqb_spec tr "monthly"); [contradiction | reflexivity].
Qed.

(** X2. A time range the [switch] does not know is served like "daily":
    whatever the parameter says, unless it is "weekly" or "monthly", the
    subreddit data of the answer is the data of the daily answer. *)
Theorem unknown_timeRange_served_as_daily (tr : string) (now : Z)
        (pool : Pool) (g : Rng) :
  tr <> "weekly" -> tr <> "monthly" ->
  Extras.body (run (GET (Some tr) now pool) g)
  = Extras.body (run (GET (Some "daily") now pool) g).
Proof.
  intros Hw Hm. rewrite !RouteFacts.GET_result.
  assert (Hc : timeCondition (or_default (Some tr) "daily") now
               = timeCondition (or_default (Some "daily") "daily") now).
  { unfold timeCondition.
    assert (Hwin : window_ms (or_default (Some tr) "daily") = day_ms).
    { simpl. destruct (String.eqb tr ""); [reflexivity |].
      now apply window_ms_default. }
    rewrite Hwin. reflexivity. }
  rewrite Hc.
  destruct (fst (subredditData pool _ subreddits g)); reflexivity.
Qed.

Lemma unknown_timeRange_served_as_daily_witness :
  "yearly" <> "weekly" /\ "yearly" <> "monthly"
  /\ Extras.body
       (run (GET (Some "yearly") day_ms
                 (connected RankingQuery.stable_engine Samples.ranked_db))
            (fun _ => 0%Q))
     = Extras.body
         (run (GET (Some "daily") day_ms
                   (connected RankingQuery.stable_engine Samples.ranked_db))
              (fun _ => 0%Q)).
Proof.
  assert (H1 : "yearly" <> "weekly") by discriminate.
  assert (H2 : "yearly" <> "monthly") by discriminate.
  split; [exact H1 |]. split; [exact H2 |].
  exact (unknown_timeRange_served_as_daily "yearly" day_ms
           (connected RankingQuery.stable_engine Samples.ranked_db)
           (fun _ => 0%Q) H1 H2).
Defined.

Lemma ticker_stats_mono (c1 c2 : Schema.Mention -> bool) (sub : string)
      (rows : list Schema.Mention) (s : RankingQuery.TickerStats) :
  (forall m, c1 m = true -> c2 m = true) ->
  In s (RankingQuery.ticker_stats c1 sub rows) ->
  exists s', In s' (RankingQuery.ticker_stats c2 sub rows)
             /\ RankingQuery.ticker s' = RankingQuery.ticker s
             /\ RankingQuery.posts s <= RankingQuery.posts s'
             /\ RankingQuery.comments s <= RankingQuery.comments s'
             /\ RankingQuery.total_mentions s
                <= RankingQuery.total_mentions s'.
Proof.
  intros Himp Hs.
  apply RouteExtras.ticker_stats_In in Hs as [[m [Hin [Hsc Ht]]] Hs].
  set (t := RankingQuery.ticker s) in *.
  assert (Hscope : forall x,
             RankingQuery.in_scope c1 sub x && String.eqb (Schema.ticker x) t
             = true ->
             RankingQuery.in_scope c2 sub x && String.eqb (Schema.ticker x) t
             = true).
  { intros x. unfold RankingQuery.in_scope.
    rewrite !andb_true_iff. intros [[H1 H2] H3]. auto. }
  exists (RankingQuery.mkStats t
            (count_case MatView.is_post (Claims.counted_for c2 sub t rows))
            (count_case MatView.is_comment (Claims.counted_for c2 sub t rows))
            (count_star (Claims.counted_for c2 sub t rows))).
  split.
  - apply RouteExtras.ticker_stats_In. simpl. split; [| reflexivity].
    exists m. repeat split; try assumption.
    unfold RankingQuery.in_scope in *.
    apply andb_true_iff in Hsc as [H1 H2]. apply andb_true_iff. auto.
  - rewrite Hs. simpl. unfold count_case, count_star, Claims.counted_for.
    rewrite !filter_filter.
    repeat split; try apply RouteExtras.filter_length_le;
      try exact Hscope;
      intros x Hx; apply andb_true_iff in Hx as [Hx Hp];
      apply andb_true_iff; auto.
Qed.

Lemma timeCondition_nested (now : Z) (m : Schema.Mention) :
  (timeCondition "daily" now m = true -> timeCondition "weekly" now m = true)
  /\ (timeCondition "weekly" now m = true
      -> timeCondition "monthly" now m = true).
Proof.
  unfold timeCondition. rewrite !Z.leb_le.
  change (window_ms "daily") with day_ms.
  change (window_ms "weekly") with (7 * day_ms)%Z.
  change (window_ms "monthly") with (30 * day_ms)%Z.
  unfold day_ms. lia.
Qed.

(** X3. The windows nest: a ticker counted for a subreddit in the daily
    window is counted in the weekly and in the monthly one as well, and
    none of its three counts shrinks from one window to the next. *)
Theorem wider_window_counts_more (now : Z) (sub : string)
        (rows : list Schema.Mention) (s : RankingQuery.TickerStats) :
  In s (RankingQuery.ticker_stats (timeCondition "daily" now) sub rows) ->
  exists w m,
    In w (RankingQuery.ticker_stats (timeCondition "weekly" now) sub rows)
    /\ In m (RankingQuery.ticker_stats (timeCondition "monthly" now) sub rows)
    /\ RankingQuery.ticker w = RankingQuery.ticker s
    /\ RankingQuery.ticker m = RankingQuery.ticker s
    /\ RankingQuery.posts s <= RankingQuery.posts w <= RankingQuery.posts m
    /\ RankingQuery.comments s <= RankingQuery.comments w
       <= RankingQuery.comments m
    /\ RankingQuery.total_mentions s <= RankingQuery.total_mentions w
       <= RankingQuery.total_mentions m.
Proof.
  intros Hs.
  destruct (ticker_stats_mono _ (timeCondition "weekly" now) sub rows s
              (fun m => proj1 (timeCondition_nested now m)) Hs)
    as [w [Hw [Htw [Hp1 [Hc1 Ht1]]]]].
  destruct (ticker_stats_mono _ (timeCondition "monthly" now) sub rows w
              (fun m => proj2 (timeCondition_nested now m)) Hw)
    as [m [Hm [Htm [Hp2 [Hc2 Ht2]]]]].
  exists w, m. repeat split; try assumption. congruence.
Qed.

Lemma wider_window_counts_more_witness :
  exists s w m,
    In s (RankingQuery.ticker_stats (timeCondition "daily" day_ms) "stocks"
            (Schema.mentions Samples.ranked_db))
    /\ In w (RankingQuery.ticker_stats (timeCondition "weekly" day_ms)
               "stocks" (Schema.mentions Samples.ranked_db))
    /\ In m (RankingQuery.ticker_stats (timeCondition "monthly" day_ms)
               "stocks" (Schema.mentions Samples.ranked_db))
    /\ RankingQuery.total_mentions s <= RankingQuery.total_mentions w
       <= RankingQuery.total_mentions m.
Proof.
  assert (Hs : In (RankingQuery.mkStats "AAPL" 2 1 3)
                  (RankingQuery.ticker_stats (timeCondition "daily" day_ms)
                     "stocks" (Schema.mentions Samples.ranked_db))).
  { vm_compute. tauto. }
  destruct (wider_window_counts_more day_ms "stocks"
              (Schema.mentions Samples.ranked_db) _ Hs)
    as [w [m [Hw [Hm [_ [_ [_ [_ Ht]]]]]]]].
  exists (RankingQuery.mkStats "AAPL" 2 1 3), w, m. auto.
Defined.

(** The rows of an answer are the rows of the query of their subreddit,
    column by column. *)
Lemma response_rows (timeRangeParam : option string) (now : Z)
      (pool : Pool) (g : Rng) (subs : list (string * list TickerData))
      (tr : string) (s : string) (rs : list TickerData) :
  run (GET timeRangeParam now pool) g = json subs tr ->
  In (s, rs) subs ->
  exists engine db,
    pool = connected engine db
    /\ tr = or_default timeRangeParam "daily"
    /\ map ticker rs
       = map (fun r => RankingQuery.ticker (RankingQuery.stats r))
             (RankingQuery.query engine (timeCondition tr now) s
                                 (Schema.mentions db)).
Proof.
  rewrite RouteFacts.GET_result.
  destruct (fst (subredditData pool _ subreddits g)) as [d|] eqn:Hd;
    [| discriminate].
  simpl. intros H Hin. inversion H; subst d tr. clear H.
  pose proof (RouteFacts.subredditData_entries _ _ _ _ _ Hd) as Hall.
  rewrite Forall_forall in Hall.
  destruct (Hall _ Hin) as [q [g0 [Hq Hrs]]]. simpl in Hq, Hrs.
  destruct pool as [engine db|]; [| discriminate].
  exists engine, db. split; [reflexivity |]. split; [reflexivity |].
  simpl in Hq. inversion Hq as [Hq']. clear Hq. rewrite Hq'.
  assert (Ht : map ticker rs = map (fun c => snd (fst (fst c))) (map core rs)).
  { rewrite map_map. reflexivity. }
  rewrite Ht, Hrs, RouteFacts.map_indexed_core, map_map. simpl.
  change (combine q (seq 1 (List.length q))) with (row_numbers q).
  rewrite <- (row_numbers_rows q) at 2. rewrite map_map. reflexivity.
Qed.

(** X4. With an engine that keeps to the [ORDER BY] clause, no ticker
    comes twice in the list of a subreddit. *)
Theorem response_tickers_distinct (timeRangeParam : option string)
        (now : Z) (pool : Pool) (g : Rng)
        (subs : list (string * list TickerData)) (tr : string) :
  Extras.pool_conforming pool ->
  run (GET timeRangeParam now pool) g = json subs tr ->
  Forall (fun e => NoDup (map ticker (snd e))) subs.
Proof.
  intros Hc H. apply Forall_forall. intros [s rs] Hin. simpl.
  destruct (response_rows _ _ _ _ _ _ _ _ H Hin)
    as [engine [db [Hpool [_ Hrows]]]].
  subst pool. rewrite Hrows.
  now apply RouteExtras.query_tickers_distinct.
Qed.

Lemma response_tickers_distinct_witness :
  Extras.pool_conforming
    (connected RankingQuery.stable_engine Samples.ranked_db)
  /\ exists subs tr,
      run (GET None day_ms
               (connected RankingQuery.stable_engine Samples.ranked_db))
          (fun _ => 0%Q)
      = json subs tr
      /\ In ("stocks", 2) (map (fun e => (fst e, List.length (snd e))) subs)
      /\ Forall (fun e => NoDup (map ticker (snd e))) subs.
Proof.
  assert (Hc : Extras.pool_conforming
                 (connected RankingQuery.stable_engine Samples.ranked_db)).
  { exact RankingFacts.stable_engine_conforming. }
  split; [exact Hc |].
  eexists. eexists. split; [vm_compute; reflexivity |].
  split; [vm_compute; tauto |].
  eapply (response_tickers_distinct None day_ms
            (connected RankingQuery.stable_engine Samples.ranked_db)
            (fun _ => 0%Q) _ _ Hc).
  vm_compute. reflexivity.
Defined.

(** X5. With an engine that keeps to the [ORDER BY] clause, every row of
    an answer stands for stored mentions: the table holds a mention of its
    ticker, in the subreddit it is listed under, inside the window of the
    time range the answer names. *)
Theorem response_rows_have_mentions (timeRangeParam : option string)
        (now : Z) (engine : RankingQuery.Engine) (db : Schema.Database)
        (g : Rng) (subs : list (string * list TickerData)) (tr : string)
        (s : string) (rs : list TickerData) (d : TickerData) :
  RankingQuery.conforming engine ->
  run (GET timeRangeParam now (connected engine db)) g = json subs tr ->
  In (s, rs) subs ->
  In d rs ->
  exists m, In m (Schema.mentions db)
            /\ Schema.ticker m = ticker d
            /\ Schema.subreddit m = s
            /\ timeCondition tr now m = true.
Proof.
  intros Hconf H Hin Hd.
  destruct (response_rows _ _ _ _ _ _ _ _ H Hin)
    as [engine' [db' [Hdb [_ Hrows]]]].
  inversion Hdb; subst engine' db'. clear Hdb.
  assert (Ht : In (ticker d) (map ticker rs)) by now apply in_map.
  rewrite Hrows in Ht. apply in_map_iff in Ht as [r [Hr Hq]].
  apply (RouteExtras.query_row_stats engine Hconf) in Hq.
  apply RouteExtras.ticker_stats_In in Hq as [[m [Hm [Hsc Htk]]] _].
  exists m. unfold RankingQuery.in_scope in Hsc.
  apply andb_true_iff in Hsc as [Hc Hsub]. apply String.eqb_eq in Hsub.
  split; [exact Hm |]. split; [congruence |]. split; assumption.
Qed.

Lemma response_rows_have_mentions_witness :
  RankingQuery.conforming RankingQuery.stable_engine
  /\ exists subs tr rs d m,
      run (GET None day_ms
               (connected RankingQuery.stable_engine Samples.ranked_db))
          (fun _ => 0%Q)
      = json subs tr
      /\ In ("stocks", rs) subs /\ In d rs
      /\ In m (Schema.mentions Samples.ranked_db)
      /\ Schema.ticker m = ticker d.
Proof.
  split; [exact RankingFacts.stable_engine_conforming |].
  assert (H : run (GET None day_ms
                       (connected RankingQuery.stable_engine
                                  Samples.ranked_db))
                  (fun _ => 0%Q)
              = json [("pennystocks", []); ("TheRaceTo10Million", []);
                      ("SecurityAnalysis", []); ("investing", []);
                      ("stocks", [mkTickerData 1 "AAPL" 2 1 (-20 # 1);
                                  mkTickerData 2 "TSLA" 1 0 (-20 # 1)])]
                     "daily").
  { vm_compute. reflexivity. }
  assert (Hin : In ("stocks", [mkTickerData 1 "AAPL" 2 1 (-20 # 1);
                               mkTickerData 2 "TSLA" 1 0 (-20 # 1)])
                   [("pennystocks", []); ("TheRaceTo10Million", []);
                    ("SecurityAnalysis", []); ("investing", []);
                    ("stocks", [mkTickerData 1 "AAPL" 2 1 (-20 # 1);
                                mkTickerData 2 "TSLA" 1 0 (-20 # 1)])]).
  { do 4 right. left. reflexivity. }
  assert (Hd : In (mkTickerData 1 "AAPL" 2 1 (-20 # 1))
                  [mkTickerData 1 "AAPL" 2 1 (-20 # 1);
                   mkTickerData 2 "TSLA" 1 0 (-20 # 1)]).
  { left. reflexivity. }
  destruct (response_rows_have_mentions None day_ms
              RankingQuery.stable_engine Samples.ranked_db
              (fun _ => 0%Q) _ _ _ _ _
              RankingFacts.stable_engine_conforming H Hin Hd)
    as [m [Hm [Ht _]]].
  eexists. eexists. eexists. eexists. exists m.
  split; [exact H |]. split; [exact Hin |]. split; [exact Hd |].
  split; [exact Hm | exact Ht].
Defined.

End ResponseExtras.

(* ================================================================== *)
(** * More on the schema *)
(* ================================================================== *)

Module SchemaExtras.
Import Sql SqlFacts Schema.

(** What every insert keeps, every run of inserts on the fresh database
    has. *)
Lemma insert_all_invariant (P : Database -> Prop) :
  P empty_db ->
  (forall m db, P db -> P (state_of (insert_mention m db))) ->
  forall rows, P (Samples.insert_all rows empty_db).
Proof.
  intros H0 Hstep rows. unfold Samples.insert_all.
  generalize dependent empty_db.
  induction rows as [|m rows IH]; intros db Hdb; simpl; [exact Hdb |].
  apply IH. now apply Hstep.
Qed.

(** An insert moves the sequence on by one step at most. *)
Lemma insert_mention_seq (m : Mention) (db : Database) :
  (mentions_id_seq db
   <= mentions_id_seq (state_of (insert_mention m db))
   <= mentions_id_seq db + 1)%Z.
Proof.
  unfold insert_mention.
  destruct (varchar_ok m); simpl; [| lia].
  destruct (decimal_ok m); simpl; [| lia].
  destruct (source_check m); simpl; [| lia].
  destruct (existsb (unique_conflict m) (mentions db)); simpl; lia.
Qed.

Lemma increasing_snoc (l : list Z) (x : Z) :
  Extras.increasing l -> Forall (fun a => (a < x)%Z) l ->
  Extras.increasing (l ++ [x]).
Proof.
  induction l as [|a l IH]; simpl; intros Hinc Hall.
  - split; [constructor | exact I].
  - destruct Hinc as [Ha Hinc]. inversion Hall as [|? ? Hax Hall']; subst.
    split.
    + apply Forall_app. split; [exact Ha |]. now repeat constructor.
    + now apply IH.
Qed.

Lemma increasing_NoDup (l : list Z) : Extras.increasing l -> NoDup l.
Proof.
  induction l as [|a l IH]; simpl; [constructor |].
  intros [Ha Hinc]. constructor; [| now apply IH].
  intros Hin. rewrite Forall_forall in Ha. specialize (Ha a Hin). lia.
Qed.

Lemma insert_all_seq (rows : list Mention) (db : Database) :
  (mentions_id_seq db
   <= mentions_id_seq (Samples.insert_all rows db)
   <= mentions_id_seq db + Z.of_nat (List.length rows))%Z.
Proof.
  unfold Samples.insert_all. revert db.
  induction rows as [|m rows IH]; intros db; simpl List.length;
    simpl fold_left.
  - lia.
  - pose proof (IH (state_of (insert_mention m db))) as Hrest.
    pose proof (insert_mention_seq m db) as Hstep. lia.
Qed.

(** The ids handed out so far: growing, positive, and not beyond the
    sequence. *)
Lemma insert_mention_ids (m : Mention) (db : Database) :
  (0 <= mentions_id_seq db)%Z
  /\ Extras.increasing (map id (mentions db))
  /\ Forall (fun r => (1 <= id r <= mentions_id_seq db)%Z) (mentions db) ->
  (0 <= mentions_id_seq (state_of (insert_mention m db)))%Z
  /\ Extras.increasing (map id (mentions (state_of (insert_mention m db))))
  /\ Forall (fun r => (1 <= id r
                       <= mentions_id_seq (state_of (insert_mention m db)))%Z)
            (mentions (state_of (insert_mention m db))).
Proof.
  intros [Hpos [Hinc Hall]].
  assert (Hup : Forall (fun r => (1 <= id r <= mentions_id_seq db + 1)%Z)
                       (mentions db)).
  { eapply Forall_impl; [| exact Hall]. simpl. intros r Hr. lia. }
  assert (Hkept : (0 <= mentions_id_seq db)%Z
                  /\ Extras.increasing (map id (mentions db))
                  /\ Forall (fun r => (1 <= id r <= mentions_id_seq db)%Z)
                            (mentions db)).
  { split; [exact Hpos |]. split; [exact Hinc | exact Hall]. }
  assert (Hmoved : (0 <= mentions_id_seq db + 1)%Z
                   /\ Extras.increasing (map id (mentions db))
                   /\ Forall (fun r => (1 <= id r
                                        <= mentions_id_seq db + 1)%Z)
                             (mentions db)).
  { split; [lia |]. split; [exact Hinc | exact Hup]. }
  unfold insert_mention.
  destruct (varchar_ok m); simpl; [| exact Hkept].
  destruct (decimal_ok m); simpl; [| exact Hkept].
  destruct (source_check m); simpl; [| exact Hmoved].
  destruct (existsb (unique_conflict m) (mentions db)); simpl;
    [exact Hmoved |].
  split; [lia |]. rewrite map_app. simpl. split.
  - apply increasing_snoc; [exact Hinc |].
    apply Forall_map. eapply Forall_impl; [| exact Hall].
    simpl. intros r Hr. lia.
  - apply Forall_app. split; [exact Hup |].
    repeat constructor; simpl; lia.
Qed.

(** X7. The primary key: after any run of inserts on the fresh database
    the ids of the stored rows grow strictly in the order of insertion,
    so no two rows share an id, and each id is at least 1 and no larger
    than the number of inserts attempted. *)
Theorem stored_ids_increase (rows : list Mention) :
  Extras.increasing (map id (Extras.stored rows))
  /\ NoDup (map id (Extras.stored rows))
  /\ Forall (fun m => (1 <= id m <= Z.of_nat (List.length rows))%Z)
            (Extras.stored rows).
Proof.
  destruct (insert_all_invariant
              (fun db => (0 <= mentions_id_seq db)%Z
                         /\ Extras.increasing (map id (mentions db))
                         /\ Forall (fun r => (1 <= id r
                                              <= mentions_id_seq db)%Z)
                                   (mentions db))) with (rows := rows)
    as [_ [Hinc Hall]].
  - simpl. split; [lia |]. split; [exact I | constructor].
  - intros m db. apply insert_mention_ids.
  - unfold Extras.stored.
    split; [exact Hinc |]. split; [now apply increasing_NoDup |].
    eapply Forall_impl; [| exact Hall]. simpl. intros r Hr.
    pose proof (insert_all_seq rows empty_db) as Hseq.
    simpl in Hseq. lia.
Qed.

(** X8. Nothing is stored that the column constraints refuse: after any
    run of inserts every stored row fits its [VARCHAR] lengths, has a
    sentiment score that fits [DECIMAL(3,2)] (or none), and has source
    'post' or 'comment'. *)
Theorem stored_rows_valid (rows : list Mention) :
  Forall (fun m => Extras.row_valid m = true) (Extras.stored rows).
Proof.
  unfold Extras.stored.
  apply (insert_all_invariant
           (fun db => Forall (fun m => Extras.row_valid m = true)
                             (mentions db))).
  - constructor.
  - intros m db Hall. unfold insert_mention.
    destruct (varchar_ok m) eqn:Hv; simpl; [| exact Hall].
    destruct (decimal_ok m) eqn:Hd; simpl; [| exact Hall].
    destruct (source_check m) eqn:Hs; simpl; [| exact Hall].
    destruct (existsb (unique_conflict m) (mentions db)); simpl;
      [exact Hall |].
    apply Forall_app. split; [exact Hall |].
    constructor; [| constructor].
    unfold Extras.row_valid, varchar_ok, decimal_ok, source_check in *.
    simpl. now rewrite Hv, Hd, Hs.
Qed.

(** X9. The unique constraint at work: after any run of inserts no two
    stored rows that carry a comment id agree on ticker, post id and
    comment id. *)
Theorem stored_comment_triples_unique (rows : list Mention) :
  NoDup (MentionStore.comment_keys (Extras.stored rows)).
Proof.
  unfold Extras.stored.
  apply (insert_all_invariant
           (fun db => NoDup (MentionStore.comment_keys (mentions db)))).
  - constructor.
  - intros m db. apply StoreFacts.insert_mention_comment_keys.
Qed.

Section View.
Variable zone : MatView.TimeZone.
Variable now : Z.
Variable rows : list Mention.

Lemma hourly_key_eqb_eq (a b : MatView.HourlyKey) :
  MatView.hourly_key_eqb a b = true <-> a = b.
Proof.
  destruct a as [[t1 s1] h1], b as [[t2 s2] h2]. simpl.
  rewrite !andb_true_iff, !String.eqb_eq, Z.eqb_eq. split.
  - intros [[-> ->] ->]. reflexivity.
  - intros H. inversion H. auto.
Qed.

Lemma view_keys :
  map Extras.view_key (MatView.mentions_hourly_query zone now rows)
  = distinct MatView.hourly_key_eqb
             (map (MatView.hourly_key zone)
                  (Extras.in_view_window now rows)).
Proof.
  unfold MatView.mentions_hourly_query, group_by, Extras.in_view_window.
  rewrite !map_map.
  erewrite map_ext; [apply map_id |].
  intros [[t s] h]. reflexivity.
Qed.


(** The rows of the view: one for each ticker, subreddit and hour with a
    mention of the last ninety days, holding the aggregates of the
    mentions of that ticker, subreddit and hour. *)
Lemma view_row_In (h : HourlyRow) :
  In h (MatView.mentions_hourly_query zone now rows)
  <-> Claims.counted_in_hour zone now h rows <> []
      /\ h = mkHourlyRow
               (h_ticker h) (h_subreddit h) (bucket_hour h)
               (count_star (Claims.counted_in_hour zone now h rows))
               (sum_case MatView.is_post
                         (Claims.counted_in_hour zone now h rows))
               (sum_case MatView.is_comment
                         (Claims.counted_in_hour zone now h rows))
               (avg sentiment_score
                    (Claims.counted_in_hour zone now h rows)).
Proof.
  unfold MatView.mentions_hourly_query, group_by. rewrite in_map_iff.
  split.
  - intros [[k g] [Hh Hin]]. apply in_map_iff in Hin as [k' [Hk Hin]].
    inversion Hk; subst k' g. clear Hk.
    rewrite (distinct_In _ hourly_key_eqb_eq) in Hin.
    apply in_map_iff in Hin as [m [Hm Hin]].
    destruct k as [[t s] b]. rewrite filter_filter in Hh.
    subst h. unfold Claims.counted_in_hour.
    cbn [h_ticker h_subreddit bucket_hour]. split; [| reflexivity].
    apply filter_In in Hin as [Hin Hwin].
    apply (filter_nonempty _ _ m Hin).
    apply andb_true_iff. split; [exact Hwin |].
    now apply hourly_key_eqb_eq.
  - intros [Hne Hh].
    destruct (Claims.counted_in_hour zone now h rows) as [|m g] eqn:Hg;
      [contradiction |].
    assert (Hm : In m (Claims.counted_in_hour zone now h rows)).
    { rewrite Hg. now left. }
    unfold Claims.counted_in_hour in Hm.
    apply filter_In in Hm as [Hin Hm].
    apply andb_true_iff in Hm as [Hwin Hkey].
    apply hourly_key_eqb_eq in Hkey.
    exists ((h_ticker h, h_subreddit h, bucket_hour h),
            filter (fun r => MatView.hourly_key_eqb
                               (MatView.hourly_key zone r)
                               (h_ticker h, h_subreddit h, bucket_hour h))
                   (filter (fun r => (now - MatView.ninety_days
                                      <=? created_at r)%Z) rows)).
    split.
    + rewrite filter_filter.
      fold (Claims.counted_in_hour zone now h rows).
      rewrite Hg. symmetry. exact Hh.
    + apply in_map_iff.
      exists (h_ticker h, h_subreddit h, bucket_hour h).
      split; [reflexivity |].
      apply (distinct_In _ hourly_key_eqb_eq).
      apply in_map_iff. exists m. split; [exact Hkey |].
      apply filter_In. auto.
Qed.

(** X12. Ticker, subreddit and hour together identify a row of the view:
    no two rows of [mentions_hourly] agree on all three, whatever the
    time zone of the session. *)
Theorem view_key_unique :
  NoDup (map Extras.view_key (MatView.mentions_hourly_query zone now rows)).
Proof.
  rewrite view_keys. unfold distinct.
  apply (distinct_from_NoDup _ hourly_key_eqb_eq).
Qed.

End View.

Section GroupSizes.
Context {Row K : Type} (eqb : K -> K -> bool) (key : Row -> K).
Hypothesis eqb_spec : forall a b, eqb a b = true <-> a = b.


End GroupSizes.





End SchemaExtras.

(* ================================================================== *)
(** * The sub-counts of the counting queries *)
(* ================================================================== *)

Module CountFacts.
Import Sql SqlFacts Schema.

(** C7. On a table that satisfies its [CHECK (source IN ('post',
    'comment'))], the counting queries hand back exactly the counts of
    the records in scope.  [ticker_stats] has one row for each ticker with
    a record in scope and no other row; the row of a ticker has as [posts]
    the number of its records of source 'post', as [comments] the number
    of source 'comment', as [total_mentions] the number of its records,
    and the first two add up to the third.  In the same way
    [mentions_hourly] has one row for each ticker, subreddit and hour with
    a record of the last ninety days and no other row, and [posts],
    [comments] and [hits] of a row are the numbers of its records of
    source 'post', of source 'comment' and of either; [posts] and
    [comments] add up to [hits]. *)
Theorem sub_counts_partition_total (cond : Mention -> bool) (sub : string)
        (zone : MatView.TimeZone) (now : Z) (rows : list Mention) :
  Claims.source_checked rows ->
  (NoDup (map RankingQuery.ticker (RankingQuery.ticker_stats cond sub rows))
   /\ forall s,
       In s (RankingQuery.ticker_stats cond sub rows)
       <-> let g := Claims.counted_for cond sub (RankingQuery.ticker s) rows
           in g <> []
              /\ RankingQuery.posts s
                 = List.length (filter MatView.is_post g)
              /\ RankingQuery.comments s
                 = List.length (filter MatView.is_comment g)
              /\ RankingQuery.total_mentions s = List.length g
              /\ RankingQuery.posts s + RankingQuery.comments s
                 = RankingQuery.total_mentions s)
  /\ (NoDup (map Extras.view_key
                 (MatView.mentions_hourly_query zone now rows))
      /\ forall h,
          In h (MatView.mentions_hourly_query zone now rows)
          <-> let g := Claims.counted_in_hour zone now h rows in
              g <> []
              /\ h_posts h = List.length (filter MatView.is_post g)
              /\ h_comments h = List.length (filter MatView.is_comment g)
              /\ hits h = List.length g
              /\ avg_sentiment h = avg sentiment_score g
              /\ h_posts h + h_comments h = hits h).
Proof.
  intros Hck. split; split.
  - rewrite RouteExtras.ticker_stats_tickers. unfold distinct.
    apply (distinct_from_NoDup String.eqb String.eqb_eq).
  - intros s. cbv zeta. rewrite RouteExtras.ticker_stats_In.
    pose proof (count_case_partition MatView.is_post MatView.is_comment
                  (Claims.counted_for cond sub (RankingQuery.ticker s) rows)
                  (RankingFacts.source_checked_filter _ rows Hck)) as Hsum.
    unfold count_case, count_star in Hsum.
    split.
    + intros [[m [Hin [Hsc Ht]]] Hs].
      pose proof (f_equal RankingQuery.posts Hs) as Hp.
      pose proof (f_equal RankingQuery.comments Hs) as Hc.
      pose proof (f_equal RankingQuery.total_mentions Hs) as Hn.
      cbn [RankingQuery.posts RankingQuery.comments
           RankingQuery.total_mentions] in Hp, Hc, Hn.
      unfold count_case, count_star in Hp, Hc, Hn.
      split.
      * unfold Claims.counted_for. apply (filter_nonempty _ _ m Hin).
        rewrite Hsc. now apply String.eqb_eq.
      * split; [exact Hp |]. split; [exact Hc |]. split; [exact Hn |].
        rewrite Hp, Hc, Hn. exact Hsum.
    + intros [Hne [Hp [Hc [Hn _]]]]. split.
      * destruct (Claims.counted_for cond sub (RankingQuery.ticker s) rows)
          as [|m g] eqn:Hg; [contradiction |].
        assert (Hm : In m (Claims.counted_for cond sub
                                              (RankingQuery.ticker s) rows)).
        { rewrite Hg. now left. }
        apply filter_In in Hm as [Hin Hm].
        apply andb_true_iff in Hm as [Hsc Htk].
        apply String.eqb_eq in Htk. exists m. auto.
      * unfold count_case, count_star. rewrite <- Hp, <- Hc, <- Hn.
        destruct s. reflexivity.
  - rewrite SchemaExtras.view_keys. unfold distinct.
    apply (distinct_from_NoDup _ SchemaExtras.hourly_key_eqb_eq).
  - intros h. cbv zeta. rewrite SchemaExtras.view_row_In.
    pose proof (count_case_partition MatView.is_post MatView.is_comment
                  (Claims.counted_in_hour zone now h rows)
                  (RankingFacts.source_checked_filter _ rows Hck)) as Hsum.
    unfold count_case, count_star in Hsum.
    split.
    + intros [Hne Hh]. split; [exact Hne |].
      pose proof (f_equal h_posts Hh) as Hp.
      pose proof (f_equal h_comments Hh) as Hc.
      pose proof (f_equal hits Hh) as Hn.
      pose proof (f_equal avg_sentiment Hh) as Ha.
      cbn [h_posts h_comments hits avg_sentiment] in Hp, Hc, Hn, Ha.
      rewrite sum_case_count_case in Hp, Hc.
      unfold count_case, count_star in Hp, Hc, Hn.
      split; [exact Hp |]. split; [exact Hc |]. split; [exact Hn |].
      split; [exact Ha |]. rewrite Hp, Hc, Hn. exact Hsum.
    + intros [Hne [Hp [Hc [Hn [Ha _]]]]]. split; [exact Hne |].
      rewrite !sum_case_count_case. unfold count_case, count_star.
      rewrite <- Hp, <- Hc, <- Hn, <- Ha. destruct h. reflexivity.
Qed.

Lemma sub_counts_partition_total_witness :
  Claims.source_checked (mentions Samples.ranked_db)
  /\ In (RankingQuery.mkStats "AAPL" 2 1 3)
        (RankingQuery.ticker_stats (fun _ => true) "stocks"
                                   (mentions Samples.ranked_db))
  /\ In (mkHourlyRow "AAPL" "stocks" 0 3 2 1 None)
        (MatView.mentions_hourly_query MatView.UTC 5000
                                       (mentions Samples.ranked_db)).
Proof.
  assert (Hck : Claims.source_checked (mentions Samples.ranked_db)).
  { vm_compute. repeat constructor. }
  split; [exact Hck |].
  destruct (sub_counts_partition_total (fun _ => true) "stocks" MatView.UTC
              5000 (mentions Samples.ranked_db) Hck)
    as [[_ Hstats] [_ Hview]].
  split.
  - apply (proj2 (Hstats (RankingQuery.mkStats "AAPL" 2 1 3))).
    vm_compute. split; [discriminate |]. repeat split.
  - apply (proj2 (Hview (mkHourlyRow "AAPL" "stocks" 0 3 2 1 None))).
    vm_compute. split; [discriminate |]. repeat split.
Defined.

End CountFacts.

(* ================================================================== *)
(** * The subreddit configuration and its seed *)
(* ================================================================== *)

Module ConfigExtras.
Import SubredditConfig.

Lemma insert_do_nothing_extends (v : string * bool * Z) (t : list Config) :
  exists extra, insert_do_nothing v t = t ++ extra.
Proof.
  destruct v as [[name active] weight]. simpl.
  destruct (has_subreddit name t).
  - exists []. now rewrite app_nil_r.
  - eexists. reflexivity.
Qed.

Lemma insert_do_nothing_keeps (v : string * bool * Z) (name : string)
      (t : list Config) :
  has_subreddit name t = true ->
  has_subreddit name (insert_do_nothing v t) = true.
Proof.
  intros H. destruct (insert_do_nothing_extends v t) as [extra ->].
  unfold has_subreddit in *. rewrite existsb_app, H. reflexivity.
Qed.


Section Fold.
Variable vs : list (string * bool * Z).



End Fold.




End ConfigExtras.

(* ================================================================== *)
(** * [getTimeAgo] *)
(* ================================================================== *)

Module TimeAgoExtras.
Import DueDiligenceRoute.
Local Open Scope Z_scope.

(** X14. [getTimeAgo] by the age [d = now - date] in milliseconds: whole
    days from one day on, whole hours from one hour on, and whole minutes
    below that, also for a date that lies ahead of the clock, which is
    given as a negative number of minutes however far ahead it is. *)
Theorem getTimeAgo_units (now date : Z) :
  getTimeAgo now date
  = if 86400000 <=? now - date then ago ((now - date) / 86400000) "day"
    else if 3600000 <=? now - date then ago ((now - date) / 3600000) "hour"
    else ago ((now - date) / 60000) "minute".
Proof.
  unfold getTimeAgo. cbv zeta.
  change (1000 * 60 * 60) with 3600000. change (1000 * 60) with 60000.
  set (d := now - date).
  assert (Hdays : d / 3600000 / 24 = d / 86400000).
  { rewrite Z.div_div by lia. reflexivity. }
  rewrite Hdays.
  pose proof (Z.div_mod d 86400000 ltac:(lia)) as Hd.
  pose proof (Z.mod_pos_bound d 86400000 ltac:(lia)) as Hdb.
  pose proof (Z.div_mod d 3600000 ltac:(lia)) as Hh.
  pose proof (Z.mod_pos_bound d 3600000 ltac:(lia)) as Hhb.
  destruct (Z.ltb_spec 0 (d / 86400000)), (Z.leb_spec 86400000 d);
    try lia; try reflexivity.
  destruct (Z.ltb_spec 0 (d / 3600000)), (Z.leb_spec 3600000 d);
    try lia; reflexivity.
Qed.

End TimeAgoExtras.

(* ================================================================== *)
(** * The API client *)
(* ================================================================== *)

Module ClientExtras.
Import Sql SqlFacts ApiClient.
Local Open Scope Z_scope.

(** ** [mergeRows] *)

Lemma add_row_In (r e : TickerMention) (entries : list TickerMention) :
  In e (add_row r entries) ->
  ticker e = ticker r \/ In e entries.
Proof.
  induction entries as [|p rest IH]; simpl.
  - intros [<- | []]. now left.
  - destruct (String.eqb_spec (ticker p) (ticker r)) as [Heq | Hne]; simpl.
    + intros [<- | Hin]; [left; exact Heq | right; now right].
    + intros [<- | Hin]; [right; now left |].
      destruct (IH Hin); [now left | right; now right].
Qed.

Lemma add_row_tickers (r : TickerMention) (entries : list TickerMention) :
  NoDup (map ticker entries) -> NoDup (map ticker (add_row r entries)).
Proof.
  induction entries as [|p rest IH]; simpl; intros Hnd.
  - repeat constructor. simpl. tauto.
  - inversion Hnd as [|? ? Hnot Hnd']; subst.
    destruct (String.eqb_spec (ticker p) (ticker r)) as [Heq | Hne]; simpl.
    + now constructor.
    + constructor; [| now apply IH].
      intros Hin. apply in_map_iff in Hin as [e [He Hin]].
      apply add_row_In in Hin as [Ht | Hin]; [congruence |].
      apply Hnot. apply in_map_iff. now exists e.
Qed.

Lemma merged_tickers (listOfRows : list (list TickerMention)) :
  NoDup (map ticker (merged listOfRows)).
Proof.
  unfold merged.
  assert (H : forall rows entries,
             NoDup (map ticker entries) ->
             NoDup (map ticker (fold_left (fun es r => add_row r es)
                                          rows entries))).
  { induction rows as [|r rows IH]; intros entries Hnd; simpl; [exact Hnd |].
    apply IH. now apply add_row_tickers. }
  apply H. constructor.
Qed.

Section Sums.
Variable f : TickerMention -> Z.
Hypothesis f_adds :
  forall (t : string) (c1 c2 t1 t2 : Z),
    f (mkTickerMention t (c1 + c2) (t1 + t2))
    = f (mkTickerMention t c1 t1) + f (mkTickerMention t c2 t2).
Hypothesis f_ticker :
  forall t t' c h, f (mkTickerMention t c h) = f (mkTickerMention t' c h).

Lemma f_eta (r : TickerMention) :
  f r = f (mkTickerMention (ticker r) (comments r) (threads r)).
Proof. now destruct r. Qed.

(** What [add_row] does to the sum over the entries of one ticker. *)
Lemma add_row_sum (tick : string) (r : TickerMention)
      (entries : list TickerMention) :
  sum f (filter (fun e => String.eqb (ticker e) tick) (add_row r entries))
  = sum f (filter (fun e => String.eqb (ticker e) tick) entries)
    + (if String.eqb (ticker r) tick then f r else 0).
Proof.
  induction entries as [|p rest IH]; simpl.
  - destruct (String.eqb (ticker r) tick); simpl; [| reflexivity].
    rewrite <- f_eta. lia.
  - destruct (String.eqb_spec (ticker p) (ticker r)) as [Heq | Hne]; simpl.
    + rewrite <- Heq.
      destruct (String.eqb (ticker p) tick); simpl; [| lia].
      rewrite f_adds, <- f_eta, (f_ticker (ticker p) (ticker r)), <- f_eta.
      lia.
    + destruct (String.eqb (ticker p) tick); simpl; rewrite IH; lia.
Qed.

Lemma fold_add_row_sum (tick : string) (rows entries : list TickerMention) :
  sum f (filter (fun e => String.eqb (ticker e) tick)
                (fold_left (fun es r => add_row r es) rows entries))
  = sum f (filter (fun e => String.eqb (ticker e) tick) entries)
    + sum f (filter (fun e => String.eqb (ticker e) tick) rows).
Proof.
  revert entries. induction rows as [|r rows IH]; intros entries; simpl.
  - lia.
  - rewrite IH, add_row_sum.
    destruct (String.eqb (ticker r) tick); simpl; lia.
Qed.

Lemma add_row_total (r : TickerMention) (entries : list TickerMention) :
  sum f (add_row r entries) = sum f entries + f r.
Proof.
  induction entries as [|p rest IH]; simpl.
  - rewrite <- f_eta. lia.
  - destruct (String.eqb_spec (ticker p) (ticker r)) as [Heq | Hne]; simpl.
    + rewrite f_adds, <- f_eta, (f_ticker (ticker p) (ticker r)), <- f_eta.
      lia.
    + rewrite IH. lia.
Qed.

Lemma merged_total (listOfRows : list (list TickerMention)) :
  sum f (merged listOfRows) = sum f (List.concat listOfRows).
Proof.
  unfold merged.
  assert (H : forall rows entries,
             sum f (fold_left (fun es r => add_row r es) rows entries)
             = sum f entries + sum f rows).
  { induction rows as [|r rows IH]; intros entries; simpl; [lia |].
    rewrite IH, add_row_total. lia. }
  rewrite H. simpl. lia.
Qed.

Lemma sum_Permutation (l l' : list TickerMention) :
  Permutation l l' -> sum f l = sum f l'.
Proof.
  induction 1; simpl; lia.
Qed.

(** An entry of the merged list holds the sum over the rows of its
    ticker. *)
Lemma merged_entry (listOfRows : list (list TickerMention))
      (e : TickerMention) :
  In e (merged listOfRows) ->
  f e = sum f (rows_of (ticker e) listOfRows).
Proof.
  intros Hin.
  pose proof (fold_add_row_sum (ticker e) (List.concat listOfRows) []) as H.
  simpl in H. fold (merged listOfRows) in H. unfold rows_of. rewrite <- H.
  pose proof (merged_tickers listOfRows) as Hnd.
  clear H. induction (merged listOfRows) as [|p rest IH];
    simpl in *; [contradiction |].
  inversion Hnd as [|? ? Hnot Hnd']; subst.
  destruct Hin as [-> | Hin].
  - rewrite String.eqb_refl. simpl.
    assert (Hrest : filter (fun x => String.eqb (ticker x) (ticker e)) rest
                    = []).
    { clear - Hnot. induction rest as [|q rest IH]; simpl; [reflexivity |].
      destruct (String.eqb_spec (ticker q) (ticker e)) as [Heq | Hne].
      - exfalso. apply Hnot. simpl. now left.
      - apply IH. intros H. apply Hnot. simpl. now right. }
    rewrite Hrest. simpl. lia.
  - destruct (String.eqb_spec (ticker p) (ticker e)) as [Heq | Hne].
    + exfalso. apply Hnot. rewrite Heq. now apply in_map.
    + now apply IH.
Qed.
(** With nothing cut off, the merge keeps the sum. *)
Lemma mergeRows_total (listOfRows : list (list TickerMention))
      (limit : nat) :
  (List.length (merged listOfRows) <= limit)%nat ->
  sum f (mergeRows listOfRows limit) = sum f (List.concat listOfRows).
Proof.
  intros Hlen. unfold mergeRows.
  rewrite firstn_all2
    by (rewrite (order_by_length by_comments_desc); exact Hlen).
  rewrite <- (sum_Permutation _ _
                (order_by_Permutation by_comments_desc _)).
  apply merged_total.
Qed.
End Sums.



Lemma mergeRows_In (listOfRows : list (list TickerMention)) (limit : nat)
      (e : TickerMention) :
  In e (mergeRows listOfRows limit) -> In e (merged listOfRows).
Proof.
  unfold mergeRows. intros Hin. apply firstn_In in Hin.
  now apply order_by_In in Hin.
Qed.

(** X15. Every row of [mergeRows] carries the totals of its ticker: its
    comments are the comments of all rows handed in for that ticker added
    up, and so are its threads. *)
Theorem mergeRows_adds_per_ticker (listOfRows : list (list TickerMention))
        (limit : nat) (e : TickerMention) :
  In e (mergeRows listOfRows limit) ->
  comments e = sum comments (rows_of (ticker e) listOfRows)
  /\ threads e = sum threads (rows_of (ticker e) listOfRows).
Proof.
  intros Hin. apply mergeRows_In in Hin. split.
  - apply (merged_entry comments); auto.
  - apply (merged_entry threads); auto.
Qed.

Lemma mergeRows_adds_per_ticker_witness :
  In (mkTickerMention "AAPL" 30 3)
     (mergeRows [[mkTickerMention "AAPL" 10 1; mkTickerMention "TSLA" 25 2];
                 [mkTickerMention "AAPL" 20 2]] 12)
  /\ comments (mkTickerMention "AAPL" 30 3)
     = sum comments
           (rows_of "AAPL"
              [[mkTickerMention "AAPL" 10 1; mkTickerMention "TSLA" 25 2];
               [mkTickerMention "AAPL" 20 2]]).
Proof.
  assert (H : In (mkTickerMention "AAPL" 30 3)
                 (mergeRows [[mkTickerMention "AAPL" 10 1;
                              mkTickerMention "TSLA" 25 2];
                             [mkTickerMention "AAPL" 20 2]] 12)).
  { vm_compute. tauto. }
  split; [exact H |].
  exact (proj1 (mergeRows_adds_per_ticker _ _ _ H)).
Defined.

Lemma by_comments_desc_total (a b : TickerMention) :
  by_comments_desc a b = false -> by_comments_desc b a = true.
Proof.
  unfold by_comments_desc. rewrite Z.leb_gt, Z.leb_le. lia.
Qed.

Lemma by_comments_desc_trans (a b c : TickerMention) :
  by_comments_desc a b = true -> by_comments_desc b c = true ->
  by_comments_desc a c = true.
Proof.
  unfold by_comments_desc. rewrite !Z.leb_le. lia.
Qed.

(** X16. [mergeRows] hands back at most [limit] rows, no ticker twice,
    listed by falling number of comments. *)
Theorem mergeRows_ranked (listOfRows : list (list TickerMention))
        (limit : nat) :
  (List.length (mergeRows listOfRows limit) <= limit)%nat
  /\ NoDup (map ticker (mergeRows listOfRows limit))
  /\ StronglySorted (fun a b => comments b <= comments a)
                    (mergeRows listOfRows limit).
Proof.
  unfold mergeRows. split; [apply (limit_length limit) |]. split.
  - apply RouteExtras.NoDup_map_firstn.
    eapply Permutation_NoDup.
    + apply Permutation_map. apply order_by_Permutation.
    + apply merged_tickers.
  - apply StronglySorted_firstn.
    eapply StronglySorted_weaken;
      [| apply (order_by_sorted by_comments_desc by_comments_desc_total
                                by_comments_desc_trans)].
    intros a b H. unfold in_order, by_comments_desc in H.
    now apply Z.leb_le in H.
Qed.

(** X17. When [limit] cuts nothing off, nothing is lost in the merge: the
    comments of the merged rows add up to the comments of all rows handed
    in, and so do the threads. *)
Theorem mergeRows_keeps_totals (listOfRows : list (list TickerMention))
        (limit : nat) :
  (List.length (merged listOfRows) <= limit)%nat ->
  sum comments (mergeRows listOfRows limit)
  = sum comments (List.concat listOfRows)
  /\ sum threads (mergeRows listOfRows limit)
     = sum threads (List.concat listOfRows).
Proof.
  intros Hlen. split.
  - apply (mergeRows_total comments); auto.
  - apply (mergeRows_total threads); auto.
Qed.

Lemma mergeRows_keeps_totals_witness :
  (List.length
     (merged [[mkTickerMention "AAPL" 10 1; mkTickerMention "TSLA" 25 2];
              [mkTickerMention "AAPL" 20 2]]) <= 12)%nat
  /\ sum comments
         (mergeRows [[mkTickerMention "AAPL" 10 1;
                      mkTickerMention "TSLA" 25 2];
                     [mkTickerMention "AAPL" 20 2]] 12)
     = 55.
Proof.
  assert (H : (List.length
                 (merged [[mkTickerMention "AAPL" 10 1;
                           mkTickerMention "TSLA" 25 2];
                          [mkTickerMention "AAPL" 20 2]]) <= 12)%nat).
  { vm_compute. lia. }
  split; [exact H |].
  rewrite (proj1 (mergeRows_keeps_totals _ 12 H)). reflexivity.
Defined.








End ClientExtras.

Module HashExtras.
Import ApiClient.
Local Open Scope Z_scope.

Lemma two32_pos : 0 < two32.
Proof. reflexivity. Qed.

Lemma ToUint32_ToInt32 (x : Z) : ToUint32 (ToInt32 x) = x mod two32.
Proof.
  unfold ToUint32, ToInt32. cbv zeta.
  destruct (x mod two32 <? 2 ^ 31).
  - apply Z.mod_mod. discriminate.
  - replace (x mod two32 - two32) with (x mod two32 + (-1) * two32) by lia.
    rewrite Z_mod_plus_full. apply Z.mod_mod. discriminate.
Qed.

Lemma lxor_mod_two32 (a b : Z) :
  Z.lxor a b mod two32 = Z.lxor (a mod two32) (b mod two32).
Proof.
  unfold two32. apply Z.bits_inj'. intros n Hn.
  rewrite Z.lxor_spec, !Z.testbit_mod_pow2, Z.lxor_spec by lia.
  destruct (n <? 32); reflexivity.
Qed.

(** One turn of the loop, seen on unsigned words. *)
Lemma hash_step (h c : Z) :
  0 <= c < two32 ->
  ToUint32 (imul (bitxor h c) 16777619)
  = (Z.lxor (ToUint32 h) c * 16777619) mod two32.
Proof.
  intros Hc. unfold imul, bitxor. rewrite ToUint32_ToInt32.
  unfold ToUint32 at 1 2.
  rewrite lxor_mod_two32.
  fold (ToUint32 (ToInt32 h)). fold (ToUint32 (ToInt32 c)).
  rewrite !ToUint32_ToInt32.
  rewrite (Z.mod_small c two32 Hc).
  rewrite (Z.mod_small 16777619 two32) by (unfold two32; lia).
  reflexivity.
Qed.

Lemma hash_fold (codes : list Z) :
  Forall (fun c => 0 <= c < 65536) codes ->
  forall h,
    ToUint32 (fold_left (fun h c => imul (bitxor h c) 16777619) codes h)
    = fold_left (fun h c => (Z.lxor h c * 16777619) mod two32) codes
                (ToUint32 h).
Proof.
  induction 1 as [|c codes Hc _ IH]; intros h; simpl; [reflexivity |].
  rewrite IH, hash_step; [reflexivity |]. unfold two32. lia.
Qed.

(** X18. On UTF-16 code units [hashString] is the 32-bit FNV-1a hash
    computed on unsigned words: the signed intermediate values of [^] and
    [Math.imul] leave no trace, and the result is a number from 0 to
    2^32 - 1. *)
Theorem hashString_is_fnv1a (codes : list Z) :
  Forall (fun c => 0 <= c < 65536) codes ->
  hashString codes = fnv1a codes /\ 0 <= hashString codes < 2 ^ 32.
Proof.
  intros Hcodes. split.
  - unfold hashString, fnv1a. rewrite (hash_fold codes Hcodes). reflexivity.
  - unfold hashString, ToUint32. apply Z.mod_pos_bound. reflexivity.
Qed.

Lemma hashString_is_fnv1a_witness :
  Forall (fun c => 0 <= c < 65536) [115; 116; 111; 99; 107; 115; 124; 55; 100]
  /\ hashString [115; 116; 111; 99; 107; 115; 124; 55; 100]
     = fnv1a [115; 116; 111; 99; 107; 115; 124; 55; 100]
  /\ 0 <= hashString [115; 116; 111; 99; 107; 115; 124; 55; 100] < 2 ^ 32.
Proof.
  assert (H : Forall (fun c => 0 <= c < 65536)
                     [115; 116; 111; 99; 107; 115; 124; 55; 100]).
  { repeat constructor; lia. }
  split; [exact H |]. exact (hashString_is_fnv1a _ H).
Defined.

End HashExtras.

(* ================================================================== *)
(** * The pages *)
(* ================================================================== *)

Module PageExtras.
Import SubredditsRoute Pages.

Lemma subreddit_rows_listed (key : string)
      (subs : list (string * list TickerData)) (tr : string) :
  In key (map fst subs) ->
  In (key, subreddit_rows key (json subs tr)) subs.
Proof.
  intros Hkey. simpl.
  destruct (find (fun e => String.eqb (fst e) key) subs) as [e|] eqn:E.
  - apply find_some in E as [Hin Heq]. apply String.eqb_eq in Heq.
    destruct e as [k rows]. simpl in *. now subst k.
  - apply in_map_iff in Hkey as [e [He Hin]].
    pose proof (find_none _ _ E e Hin) as Hn. simpl in Hn.
    rewrite He, String.eqb_refl in Hn. discriminate.
Qed.

(** X19. What the page makes of the route's answer, once both requests
    have come back with a JSON body: no error is shown;
    with the database in reach the two tables hold the lists the answer
    gives for "pennystocks" and "TheRaceTo10Million"; and the error
    answer of status 500 ends in two empty tables, not in the error
    message. *)
Theorem page_after_fetch (st : PageState)
        (tickers : option (list TickerData))
        (timeRangeParam : option string) (now : Z) (pool : Pool) (g : Rng) :
  let answer := run (GET timeRangeParam now pool) g in
  let st' := fetchData st (Some tickers) (Some answer) in
  error st' = None
  /\ loading st' = false
  /\ match pool with
     | connected _ _ =>
         exists subs tr,
           answer = json subs tr
           /\ In ("pennystocks", pennystocks (data st')) subs
           /\ In ("TheRaceTo10Million", TheRaceTo10Million (data st')) subs
     | unreachable =>
         pennystocks (data st') = [] /\ TheRaceTo10Million (data st') = []
     end.
Proof.
  cbv zeta. split; [reflexivity |]. split; [reflexivity |].
  rewrite RouteFacts.GET_result. destruct pool as [engine db|].
  - destruct (ResponseExtras.subredditData_connected engine db
                (timeCondition (or_default timeRangeParam "daily") now)
                subreddits g) as [d [Hd Hkeys]].
    rewrite Hd. exists d, (or_default timeRangeParam "daily").
    split; [reflexivity |]. unfold fetchData, data, pennystocks,
      TheRaceTo10Million, respond.
    split; apply subreddit_rows_listed; rewrite Hkeys; simpl; tauto.
  - simpl. auto.
Qed.

Lemma toggle_In (x y : string) (prev : list string) :
  In y (toggle x prev)
  <-> (y = x /\ ~ In x prev) \/ (y <> x /\ In y prev).
Proof.
  unfold toggle.
  destruct (existsb (String.eqb x) prev) eqn:E.
  - assert (Hx : In x prev).
    { apply existsb_exists in E as [z [Hz Hxz]].
      apply String.eqb_eq in Hxz. now subst z. }
    rewrite filter_In, negb_true_iff, String.eqb_neq. tauto.
  - assert (Hx : ~ In x prev).
    { intros Hin.
      assert (existsb (String.eqb x) prev = true).
      { apply existsb_exists. exists x. split; [exact Hin |].
        apply String.eqb_refl. }
      congruence. }
    rewrite in_app_iff. simpl.
    destruct (string_dec y x) as [-> | Hne]; [tauto |].
    split.
    + intros [H | [H | []]]; [tauto | congruence].
    + intros [[H _] | [_ H]]; [contradiction | tauto].
Qed.

(** X20. Toggling a ticker, subreddit or tag in a filter: the toggled
    entry is in the selection afterwards exactly if it was not before,
    every other entry stays as it was, a selection without repetition
    stays without repetition, and toggling twice gives a selection with
    the members it had at the start. *)
Theorem toggle_flips_membership (x : string) (prev : list string) :
  (In x (toggle x prev) <-> ~ In x prev)
  /\ (forall y, y <> x -> (In y (toggle x prev) <-> In y prev))
  /\ (NoDup prev -> NoDup (toggle x prev))
  /\ (forall y, In y (toggle x (toggle x prev)) <-> In y prev).
Proof.
  split; [| split; [| split]].
  - rewrite toggle_In. tauto.
  - intros y Hy. rewrite toggle_In. tauto.
  - intros Hnd. unfold toggle.
    destruct (existsb (String.eqb x) prev) eqn:E.
    + now apply NoDup_filter.
    + apply (Permutation_NoDup (Permutation_cons_append prev x)).
      constructor; [| exact Hnd].
      intros Hin.
      assert (existsb (String.eqb x) prev = true).
      { apply existsb_exists. exists x. split; [exact Hin |].
        apply String.eqb_refl. }
      congruence.
  - intros y. rewrite !toggle_In.
    destruct (string_dec y x) as [-> | Hne]; [| tauto].
    destruct (in_dec string_dec x prev); tauto.
Qed.

End PageExtras.
